(** * PDF audio summarizer: truncation guards, extraction fallback and
      service wrappers

    A shallow embedding of [src/utils/claude_client.py],
    [src/utils/elevenlabs_client.py] and the extraction and file-name code of
    [src/streamlit_app.py].

    - Python [str] values are lists of Unicode code points.
    - Python [int] values are [Z].
    - Python [float] values are IEEE binary64 numbers, written with the
      [spec_float] type of the standard library.
    - Code that logs, calls a hosted service or raises is written in a small
      state-and-exception monad over a [World] that records the log and the
      calls made to the outside. *)

From Stdlib Require Import ZArith NArith List Bool Lia String Ascii.
From Stdlib Require Import DecimalString.
From Stdlib Require Import Floats.SpecFloat.
Import ListNotations.

Set Implicit Arguments.

Local Open Scope Z_scope.

(* ================================================================== *)
(** ** Python strings *)

Module PyStr.

(** A character is its code point. *)
Definition char := N.
Definition str := list char.

(** A literal of the source, written as a Rocq string (one byte per
    character: the literals used below are Latin-1). *)
Definition lit (s : string) : str :=
  List.map N_of_ascii (list_ascii_of_string s).

Definition len (s : str) : Z := Z.of_nat (List.length s).

(** Truth value of a string: [if s:] holds when [s] is not empty. *)
Definition truthy (s : str) : bool :=
  match s with [] => false | _ :: _ => true end.

Definition eqb (s t : str) : bool :=
  if list_eq_dec N.eq_dec s t then true else false.

(** [c.isspace()]: the code points Python treats as white space. *)
Definition isspace (c : char) : bool :=
  (((9 <=? c) && (c <=? 13)) || ((28 <=? c) && (c <=? 32))
   || (c =? 133) || (c =? 160) || (c =? 5760)
   || ((8192 <=? c) && (c <=? 8202))
   || (c =? 8232) || (c =? 8233) || (c =? 8239) || (c =? 8287)
   || (c =? 12288))%N.

Fixpoint lstrip (s : str) : str :=
  match s with
  | [] => []
  | c :: r => if isspace c then lstrip r else s
  end.

Definition rstrip (s : str) : str := rev (lstrip (rev s)).

(** [s.strip()] *)
Definition strip (s : str) : str := rstrip (lstrip s).

(** [s.split()]: the maximal runs of characters that are not white
    space, in order.  [w] is the run being read. *)
Fixpoint split_from (w : str) (s : str) : list str :=
  match s with
  | [] => if truthy w then [w] else []
  | c :: r =>
      if isspace c
      then (if truthy w then w :: split_from [] r else split_from [] r)
      else split_from (w ++ [c]) r
  end.

Definition split (s : str) : list str := split_from [] s.

(** [s[:stop]]: a negative [stop] counts from the end, and the bound is
    clamped to the string. *)
Definition slice_to (s : str) (stop : Z) : str :=
  let n := len s in
  let stop' := if stop <? 0 then Z.max 0 (stop + n) else Z.min stop n in
  firstn (Z.to_nat stop') s.

Fixpoint startswith (sub s : str) : bool :=
  match sub, s with
  | [], _ => true
  | _ :: _, [] => false
  | a :: sub', b :: s' => (a =? b)%N && startswith sub' s'
  end.

(** [s.rfind(sub)]: the highest index at which [sub] occurs, or -1.
    [i] is the index of the head of [s], [best] the highest match seen. *)
Fixpoint rfind_from (sub s : str) (i best : Z) : Z :=
  match s with
  | [] => if startswith sub [] then i else best
  | _ :: r => rfind_from sub r (i + 1) (if startswith sub s then i else best)
  end.

Definition rfind (s sub : str) : Z := rfind_from sub s 0 (-1).

(** [s.replace(old, new)]: every occurrence of [old], leftmost first and
    not overlapping, becomes [new]. *)
Fixpoint replace_fuel (fuel : nat) (old new s : str) : str :=
  match fuel with
  | O => s
  | S fuel' =>
      match s with
      | [] => []
      | c :: r =>
          if startswith old s
          then new ++ replace_fuel fuel' old new (skipn (List.length old) s)
          else c :: replace_fuel fuel' old new r
      end
  end.

Definition replace (s old new : str) : str :=
  match old with
  | [] => new ++ flat_map (fun c => c :: new) s
  | _ :: _ => replace_fuel (List.length s) old new s
  end.

(** [sub in s] *)
Fixpoint occurs (sub s : str) : bool :=
  startswith sub s
  || match s with
     | [] => false
     | _ :: r => occurs sub r
     end.

(** [str(n)] for an int: its decimal notation. *)
Definition of_int (n : Z) : str :=
  lit (NilZero.string_of_int (Z.to_int n)).

(** [t] is an initial segment of [s]. *)
Definition is_prefix (t s : str) : Prop := exists rest, s = t ++ rest.

(** [s] has no character that is not white space. *)
Definition blank (s : str) : Prop := Forall (fun c => isspace c = true) s.

End PyStr.

Import PyStr.

(* ================================================================== *)
(** ** Exceptions and results *)

(** The exception classes the code raises or lets through.  All of them are
    subclasses of [Exception], which is what the handlers of the source
    catch. *)
Inductive exn : Type :=
| ValueError (msg : str)
| RuntimeError (msg : str) (cause : exn)
| IndexError (msg : str)
| OverflowError (msg : str)
| ZeroDivisionError (msg : str)
| APIError (msg : str)                (* anthropic.APIError *)
| LibraryError (cls msg : str).       (* any other exception of a library *)

(** [str(e)] *)
Definition exn_str (e : exn) : str :=
  match e with
  | ValueError m | RuntimeError m _ | IndexError m | OverflowError m
  | ZeroDivisionError m | APIError m | LibraryError _ m => m
  end.

Definition is_APIError (e : exn) : bool :=
  match e with APIError _ => true | _ => false end.

Inductive result (A : Type) : Type :=
| Ok (a : A)
| Raise (e : exn).

Arguments Ok {A} a.
Arguments Raise {A} e.

(* ================================================================== *)
(** ** Python floats *)

Module PyFloat.

Definition prec : Z := 53.
Definition emax : Z := 1024.

Definition float := spec_float.

(** The binary64 number nearest to an integer (ties to even); an infinity
    when the integer is out of range. *)
Definition nearest_int (n : Z) : float := binary_normalize prec emax n 0 false.

(** [float(n)], as done by [n * x] for an int [n] and a float [x]. *)
Definition of_int (n : Z) : result float :=
  match nearest_int n with
  | S754_infinity _ =>
      Raise (OverflowError (lit "int too large to convert to float"))
  | f => Ok f
  end.

(** A decimal literal [n/d] of the source denotes the nearest binary64
    number. *)
Definition literal (n d : Z) : float :=
  SFdiv prec emax (nearest_int n) (nearest_int d).

Definition f0_8 : float := literal 8 10.
Definition f0_7 : float := literal 7 10.
Definition f1_3 : float := literal 13 10.
Definition f0_1 : float := literal 1 10.

Definition mul (x y : float) : float := SFmul prec emax x y.

(** [n * x] for an int [n] and a float [x]. *)
Definition int_mul (n : Z) (x : float) : result float :=
  match of_int n with
  | Ok f => Ok (mul f x)
  | Raise e => Raise e
  end.

(** Python compares an int with a float by their exact values. *)
Definition cmp_int (k : Z) (x : float) : option comparison :=
  match x with
  | S754_nan => None
  | S754_infinity s => Some (if s then Gt else Lt)
  | S754_zero _ => Some (k ?= 0)
  | S754_finite s m e =>
      let v := if s then Zneg m else Zpos m in
      Some (if 0 <=? e then k ?= v * 2 ^ e else k * 2 ^ (- e) ?= v)
  end.

(** [k > x] and [k < x] *)
Definition int_gt (k : Z) (x : float) : bool :=
  match cmp_int k x with Some Gt => true | _ => false end.

Definition int_lt (k : Z) (x : float) : bool :=
  match cmp_int k x with Some Lt => true | _ => false end.

(** Exact comparison of two floats. *)
Definition signed (s : bool) (m : positive) : Z :=
  if s then Zneg m else Zpos m.

Definition cmp (x y : float) : option comparison :=
  match x, y with
  | S754_nan, _ | _, S754_nan => None
  | S754_infinity s1, S754_infinity s2 =>
      Some (match s1, s2 with
            | true, false => Lt | false, true => Gt | _, _ => Eq end)
  | S754_infinity s, _ => Some (if s then Lt else Gt)
  | _, S754_infinity s => Some (if s then Gt else Lt)
  | S754_zero _, S754_zero _ => Some Eq
  | S754_zero _, S754_finite s _ _ => Some (if s then Gt else Lt)
  | S754_finite s _ _, S754_zero _ => Some (if s then Lt else Gt)
  | S754_finite s1 m1 e1, S754_finite s2 m2 e2 =>
      let e0 := Z.min e1 e2 in
      Some (signed s1 m1 * 2 ^ (e1 - e0) ?= signed s2 m2 * 2 ^ (e2 - e0))
  end.

(** [x <= y] *)
Definition leb (x y : float) : bool :=
  match cmp x y with Some Lt | Some Eq => true | _ => false end.

(** The integer nearest to [n/d], ties to the even one ([0 < d]). *)
Definition round_half_even (n d : Z) : Z :=
  let q := n / d in
  match 2 * (n mod d) ?= d with
  | Lt => q
  | Gt => q + 1
  | Eq => if Z.even q then q else q + 1
  end.

(** The quotient [a/b] of two ints ([0 <= a], [0 < b]) rounded to
    binary64: a mantissa [m <= 2^53] and a shift, for the value
    [m * 2^(shift - 1074)].  Every finite binary64 number is a multiple of
    [2^-1074]; the mantissa keeps 53 bits once the quotient reaches
    [2^-1021]. *)
Definition div_round (a b : Z) : Z * Z :=
  let scaled := a * 2 ^ 1074 in
  let shift := Z.max 0 (Z.log2 (scaled / b) - 52) in
  (round_half_even scaled (b * 2 ^ shift), shift).

(** The float of sign [s] and magnitude [m * 2^e], with [m <= 2^53]. *)
Definition pack (s : bool) (m e : Z) : result float :=
  match m with
  | Z0 => Ok (S754_zero s)
  | Zpos p =>
      let '(p', e') :=
        if m =? 2 ^ 53 then (Z.to_pos (2 ^ 52), e + 1) else (p, e) in
      if e' <=? emax - prec
      then Ok (S754_finite s p' e')
      else Raise (OverflowError
                    (lit "integer division result too large for a float"))
  | Zneg _ => Ok S754_nan
  end.

(** [a / b] for two ints: the correctly rounded quotient. *)
Definition true_div (a b : Z) : result float :=
  if b =? 0 then Raise (ZeroDivisionError (lit "division by zero"))
  else
    let s := xorb (a <? 0) (b <? 0) in
    let '(m, shift) := div_round (Z.abs a) (Z.abs b) in
    pack s m (shift - 1074).

(** A positive integer as the pair of a mantissa and the exponent 0. *)
Definition whole (n : positive) : float := S754_finite false n 0.

(** The rounded quotient, and a finite float, as a whole number of units
    of [2^-1074]. *)
Definition div_units (a b : Z) : Z :=
  let '(m, shift) := div_round a b in m * 2 ^ shift.

Definition units (f : float) : Z :=
  match f with
  | S754_finite s m e => signed s m * 2 ^ (e + 1074)
  | _ => 0
  end.

(** A zero, or a finite number whose exponent is at least -1074. *)
Definition finite_above (f : float) : Prop :=
  match f with
  | S754_zero _ => True
  | S754_finite _ _ e => -1074 <= e
  | _ => False
  end.

End PyFloat.

(* ================================================================== *)
(** ** The world: log records, outside calls, and the monad *)

Definition bytes := list Byte.byte.

Inductive level : Type := INFO | WARNING | ERROR.

(** One constructor per logging call of the source, with the values its
    message is formatted from. *)
Inductive log_msg : Type :=
(* claude_client.py *)
| ClaudeInitialized (model : str)
| ContentExceedsLimit (estimated_tokens : Z)
| TruncatedTo (characters : Z)
| GeneratingSummary (characters : Z)
| GeneratedSummary (word_count target_words : Z)
| SummaryShorter
| SummaryLonger
| ClaudeAPIError (e : exn)
| UnexpectedSummaryError (e : exn)
(* elevenlabs_client.py *)
| ElevenLabsInitialized (voice_id : str)
| EstimatedDuration (duration_minutes : PyFloat.float) (word_count : Z)
| TextExceedsLimit (length max_chars : Z)
| GeneratingAudio (characters : Z)
| AudioGenerated (size : Z)
| AudioGenerationFailed (e : exn)
| ElevenLabsCallFailed (e : exn)
| CreatedAudioBuffer (filename : str)
| PipelineStarting
| PipelineCompleted
| PipelineFailed (e : exn)
| ConnectionTestFailed (e : exn)
(* streamlit_app.py *)
| ExtractedWithPdfplumber (characters : Z)
| PdfplumberFailed (e : exn)
| ExtractedWithPyPDF2 (characters : Z)
| PyPDF2Failed (e : exn)
| ProcessingPipelineError (e : exn).

(** What the code asks of the outside: the hosted services, the two PDF
    parsers and the page it renders. *)
Inductive call : Type :=
| MessagesCreate (model : str) (max_tokens : Z) (temperature : PyFloat.float)
    (prompt : str)
| TextToSpeechConvert (voice_id output_format text model_id : str)
| PdfplumberOpen (data : bytes) (cursor : Z)
| PyPDF2Reader (data : bytes) (cursor : Z)
| StProgress (percent : Z)
| StProgressEmpty
| StStatusText (text : str)
| StStatusEmpty
| StError (text : str)
| StExtractedWords (word_count : Z)
| StSuccess (text : str)
| StExpanderWrite (label text : str)
| StAudio (data : bytes) (format : str)
| StDownloadButton (label : str) (data : bytes) (file_name mime : str)
| StAudioDuration (estimated_duration : PyFloat.float).

Record World : Type := {
  logged : list (level * log_msg);   (* oldest first *)
  calls : list call;                 (* oldest first *)
  cursor : Z                         (* read cursor of the uploaded file *)
}.

(** A computation reads and changes the world, and returns or raises. *)
Definition M (A : Type) : Type := World -> result A * World.

Definition ret {A} (a : A) : M A := fun w => (Ok a, w).

Definition raise {A} (e : exn) : M A := fun w => (Raise e, w).

Definition bind {A B} (m : M A) (k : A -> M B) : M B :=
  fun w =>
    match m w with
    | (Ok a, w') => k a w'
    | (Raise e, w') => (Raise e, w')
    end.

(** [try: m  except Exception as e: h e] *)
Definition try_except {A} (m : M A) (h : exn -> M A) : M A :=
  fun w =>
    match m w with
    | (Ok a, w') => (Ok a, w')
    | (Raise e, w') => h e w'
    end.

(** [try: m  finally: f] *)
Definition try_finally {A} (m : M A) (f : M unit) : M A :=
  fun w =>
    match m w with
    | (r, w') =>
        match f w' with
        | (Ok _, w'') => (r, w'')
        | (Raise e, w'') => (Raise e, w'')
        end
    end.

Definition lift {A} (r : result A) : M A := fun w => (r, w).

Definition log (l : level) (m : log_msg) : M unit :=
  fun w => (Ok tt, {| logged := logged w ++ [(l, m)];
                      calls := calls w;
                      cursor := cursor w |}).

Definition record_call (c : call) : M unit :=
  fun w => (Ok tt, {| logged := logged w;
                      calls := calls w ++ [c];
                      cursor := cursor w |}).

Definition get_cursor : M Z := fun w => (Ok (cursor w), w).

Definition set_cursor (p : Z) : M unit :=
  fun w => (Ok tt, {| logged := logged w; calls := calls w; cursor := p |}).

Declare Scope monad_scope.
Delimit Scope monad_scope with monad.
Notation "x <- m ;; k" := (bind m (fun x => k))
  (at level 61, m at next level, right associativity) : monad_scope.
Notation "m ;; k" := (bind m (fun _ => k))
  (at level 61, right associativity) : monad_scope.
Local Open Scope monad_scope.

(** *** The services *)

Record TextBlock : Type := { text : str }.

(** [anthropic.types.Message], as far as the code reads it. *)
Record Message : Type := { content : list TextBlock }.

(** What [text_to_speech.convert] returns: bytes, or an iterator of chunks
    that may raise after some of them. *)
Inductive audio : Type :=
| AudioBytes (b : bytes)
| AudioChunks (chunks : list bytes) (failure : option exn).

(** The text of a page: [None] or a string. *)
Definition page := result (option str).

(** The behaviour of the outside, as functions of what it is asked.  A PDF
    parser is given the bytes and the read cursor of the file; it returns
    the pages (or raises) and leaves the cursor somewhere. *)
Record Services : Type := {
  messages_create : str -> Z -> PyFloat.float -> str -> result Message;
  text_to_speech_convert : str -> str -> str -> str -> result audio;
  pdfplumber_open : bytes -> Z -> result (list page) * Z;
  pypdf2_reader : bytes -> Z -> result (list page) * Z
}.

(* ================================================================== *)
(** ** [utils/claude_client.py] *)

Module ClaudeClient.

Record ClaudeProcessor : Type := {
  model : str;
  max_input_tokens : Z;
  target_output_tokens : Z
}.

Definition default_model : str := lit "claude-sonnet-4-0".

(** [ClaudeProcessor.__init__] *)
Definition init (api_key model : str) : M ClaudeProcessor :=
  if negb (truthy api_key)
     || PyStr.eqb api_key (lit "your_anthropic_api_key_here")
  then raise (ValueError (lit "Valid Anthropic API key required"))
  else
    log INFO (ClaudeInitialized model) ;;
    ret {| model := model;
           max_input_tokens := 100000;
           target_output_tokens := 2000 |}.

Definition quote : str := [34%N].
Definition plus_minus : str := [194%N; 177%N].

(** [create_summary_prompt] *)
Definition create_summary_prompt (pdf_text : str) (target_minutes : Z) : str :=
  (* Calculate target word count (average 150 words/minute) *)
  let target_words := target_minutes * 150 in
  (lit "You are an expert scientific communicator tasked with creating audio-ready summaries of research papers.

TASK: Create a " ++ PyStr.of_int target_minutes
   ++ lit "-minute spoken summary (approximately "
   ++ PyStr.of_int target_words
   ++ lit " words) of the following scientific paper.

REQUIREMENTS:
1. **Audio-First Design**: Write for listening, not reading
   - Use clear, conversational language
   - Include natural transitions between sections
   - Avoid complex jargon without explanation

2. **Structure for Audio**:
   - Start with a compelling hook about the research significance
   - Provide clear section transitions (" ++ quote
   ++ lit "Now, let's examine the methodology..." ++ quote ++ lit ")
   - End with practical implications and future directions

3. **Scientific Accuracy**:
   - Preserve key technical details and findings
   - Explain methodology in accessible terms
   - Include specific numbers and results where important

4. **Target Length**: Exactly " ++ PyStr.of_int target_words
   ++ lit " words (" ++ plus_minus ++ lit "50 words)

PAPER CONTENT:
" ++ pdf_text ++ lit "

OUTPUT FORMAT:
Provide only the summary text, ready for text-to-speech conversion. No headers, bullet points, or formatting - just flowing, natural speech.")%list.

(** [estimate_tokens]: about 4 characters per token. *)
Definition estimate_tokens (text : str) : Z := len text / 4.

Definition paragraph_break : str := [10%N; 10%N].

(** [truncate_pdf_content] *)
Definition truncate_pdf_content (self : ClaudeProcessor) (pdf_text : str)
  : M str :=
  let estimated_tokens := estimate_tokens pdf_text in
  (* Reserve tokens for prompt and response *)
  let available_tokens := max_input_tokens self - 1000 in
  if estimated_tokens <=? available_tokens then ret pdf_text
  else
    log WARNING (ContentExceedsLimit estimated_tokens) ;;
    let char_limit := available_tokens * 4 in
    let truncated := slice_to pdf_text char_limit in
    let last_paragraph := rfind truncated paragraph_break in
    threshold <- lift (PyFloat.int_mul char_limit PyFloat.f0_8) ;;
    let truncated :=
      if PyFloat.int_gt last_paragraph threshold
      then slice_to truncated last_paragraph
      else truncated in
    log INFO (TruncatedTo (len truncated)) ;;
    ret truncated.

(** [_make_sync_api_call] *)
Definition _make_sync_api_call (svc : Services) (self : ClaudeProcessor)
    (prompt : str) : M Message :=
  record_call (MessagesCreate (model self) (target_output_tokens self)
                 PyFloat.f0_1 prompt) ;;
  lift (messages_create svc (model self) (target_output_tokens self)
          PyFloat.f0_1 prompt).

(** [response.content[0]] *)
Definition first_block (response : Message) : result TextBlock :=
  match content response with
  | b :: _ => Ok b
  | [] => Raise (IndexError (lit "list index out of range"))
  end.

(** [generate_summary] *)
Definition generate_summary (svc : Services) (self : ClaudeProcessor)
    (pdf_text : str) (target_minutes : Z) : M str :=
  if negb (truthy (strip pdf_text))
  then raise (ValueError (lit "PDF content cannot be empty"))
  else
    (* Prepare content within token limits *)
    processed_content <- truncate_pdf_content self pdf_text ;;
    let prompt := create_summary_prompt processed_content target_minutes in
    log INFO (GeneratingSummary (len processed_content)) ;;
    try_except
      (response <- _make_sync_api_call svc self prompt ;;
       block <- lift (first_block response) ;;
       let summary := strip (text block) in
       (* Validate output quality *)
       let word_count := Z.of_nat (List.length (split summary)) in
       let target_words := target_minutes * 150 in
       log INFO (GeneratedSummary word_count target_words) ;;
       low <- lift (PyFloat.int_mul target_words PyFloat.f0_7) ;;
       if PyFloat.int_lt word_count low
       then log WARNING SummaryShorter ;; ret summary
       else
         high <- lift (PyFloat.int_mul target_words PyFloat.f1_3) ;;
         if PyFloat.int_gt word_count high
         then log WARNING SummaryLonger ;; ret summary
         else ret summary)
      (fun e =>
         if is_APIError e
         then log ERROR (ClaudeAPIError e) ;; raise e
         else log ERROR (UnexpectedSummaryError e) ;; raise e).

End ClaudeClient.

(* ================================================================== *)
(** ** [utils/elevenlabs_client.py] *)

Module ElevenLabs.

Record ElevenLabsProcessor : Type := {
  voice_id : str;
  model_id : str;
  output_format : str
}.

Definition default_voice_id : str := lit "vBaThRCUhBj6DkxqB593".
Definition default_model_id : str := lit "eleven_multilingual_v2".

(** [ElevenLabsProcessor.__init__] *)
Definition init (api_key voice_id model_id : str) : M ElevenLabsProcessor :=
  if negb (truthy api_key)
     || PyStr.eqb api_key (lit "your_elevenlabs_api_key_here")
  then raise (ValueError (lit "Valid ElevenLabs API key required"))
  else
    log INFO (ElevenLabsInitialized voice_id) ;;
    ret {| voice_id := voice_id;
           model_id := model_id;
           output_format := lit "mp3_44100_128" |}.

(** [len(text.split())] *)
Definition word_count (text : str) : Z := Z.of_nat (List.length (split text)).

(** [estimate_audio_duration] *)
Definition estimate_audio_duration (text : str) (words_per_minute : Z)
  : M PyFloat.float :=
  let word_count := word_count text in
  duration_minutes <- lift (PyFloat.true_div word_count words_per_minute) ;;
  log INFO (EstimatedDuration duration_minutes word_count) ;;
  ret duration_minutes.

Definition default_max_chars : Z := 5000.

Definition period : str := lit ".".

(** [validate_text_length] *)
Definition validate_text_length (text : str) (max_chars : Z) : M str :=
  if negb (truthy (strip text))
  then raise (ValueError (lit "Text cannot be empty"))
  else if len text <=? max_chars then ret text
  else
    log WARNING (TextExceedsLimit (len text) max_chars) ;;
    (* Truncate at sentence boundary if possible *)
    let truncated := slice_to text max_chars in
    let last_sentence := rfind truncated period in
    threshold <- lift (PyFloat.int_mul max_chars PyFloat.f0_8) ;;
    let truncated :=
      if PyFloat.int_gt last_sentence threshold
      then slice_to truncated (last_sentence + 1)
      else truncated in
    ret truncated.

(** [b''.join(audio)] over the iterator of chunks *)
Definition join_chunks (chunks : list bytes) (failure : option exn)
  : result bytes :=
  match failure with
  | Some e => Raise e
  | None => Ok (List.concat chunks)
  end.

(** [_generate_sync] *)
Definition _generate_sync (svc : Services) (self : ElevenLabsProcessor)
    (text : str) : M bytes :=
  try_except
    (record_call (TextToSpeechConvert (voice_id self) (output_format self)
                    text (model_id self)) ;;
     audio <- lift (text_to_speech_convert svc (voice_id self)
                      (output_format self) text (model_id self)) ;;
     match audio with
     | AudioChunks chunks failure => lift (join_chunks chunks failure)
     | AudioBytes b => ret b
     end)
    (fun e => log ERROR (ElevenLabsCallFailed e) ;; raise e).

(** [generate_audio] *)
Definition generate_audio (svc : Services) (self : ElevenLabsProcessor)
    (text : str) : M bytes :=
  (* Validate input *)
  processed_text <- validate_text_length text default_max_chars ;;
  duration_estimate <- estimate_audio_duration processed_text 150 ;;
  log INFO (GeneratingAudio (len processed_text)) ;;
  try_except
    (audio_data <- _generate_sync svc self processed_text ;;
     log INFO (AudioGenerated (Z.of_nat (List.length audio_data))) ;;
     ret audio_data)
    (fun e =>
       log ERROR (AudioGenerationFailed e) ;;
       raise (RuntimeError (lit "Failed to generate audio: " ++ exn_str e) e)).

(** [io.BytesIO] with the [name] attribute the code sets *)
Record BytesIO : Type := {
  buffer : bytes;
  name : str;
  position : Z
}.

(** [create_audio_file] *)
Definition create_audio_file (audio_data : bytes) (filename : str)
  : M BytesIO :=
  let audio_buffer :=
    {| buffer := audio_data; name := filename; position := 0 |} in
  log INFO (CreatedAudioBuffer filename) ;;
  ret audio_buffer.

(** [text_to_audio_file] *)
Definition text_to_audio_file (svc : Services) (self : ElevenLabsProcessor)
    (text filename : str) : M BytesIO :=
  log INFO PipelineStarting ;;
  try_except
    (audio_data <- generate_audio svc self text ;;
     audio_file <- create_audio_file audio_data filename ;;
     log INFO PipelineCompleted ;;
     ret audio_file)
    (fun e => log ERROR (PipelineFailed e) ;; raise e).

Definition test_phrase : str := lit "Testing connection.".

(** [test_connection] *)
Definition test_connection (svc : Services) (self : ElevenLabsProcessor)
  : M bool :=
  try_except
    (test_audio <- generate_audio svc self test_phrase ;;
     ret (0 <? Z.of_nat (List.length test_audio)))
    (fun e => log ERROR (ConnectionTestFailed e) ;; ret false).

End ElevenLabs.

(* ================================================================== *)
(** ** [streamlit_app.py] *)

Module App.

(** The uploaded file: its name and bytes.  Its read cursor is the
    [cursor] of the world. *)
Record UploadedFile : Type := {
  file_name : str;
  getvalue : bytes
}.

(** The loop over the pages: the text of every page that has some,
    each followed by a blank line; the first page that raises ends it. *)
Fixpoint pages_text (pages : list page) (text : str) : result str :=
  match pages with
  | [] => Ok text
  | Raise e :: _ => Raise e
  | Ok page_text :: rest =>
      pages_text rest
        (match page_text with
         | Some t => if truthy t then text ++ t ++ [10%N; 10%N] else text
         | None => text
         end)
  end.

Definition open_with_pdfplumber (svc : Services) (f : UploadedFile)
  : M (list page) :=
  pos <- get_cursor ;;
  record_call (PdfplumberOpen (getvalue f) pos) ;;
  let '(r, pos') := pdfplumber_open svc (getvalue f) pos in
  set_cursor pos' ;;
  lift r.

Definition read_with_pypdf2 (svc : Services) (f : UploadedFile)
  : M (list page) :=
  pos <- get_cursor ;;
  record_call (PyPDF2Reader (getvalue f) pos) ;;
  let '(r, pos') := pypdf2_reader svc (getvalue f) pos in
  set_cursor pos' ;;
  lift r.

Definition extraction_failed : str :=
  [10060%N] ++
  lit " Failed to extract text from PDF. Please ensure it's a text-based PDF.".

(** [extract_pdf_text].  Inside each [try], [Some t] is a [return t] of the
    source and [None] is falling out of the block. *)
Definition extract_pdf_text (svc : Services)
    (uploaded_file : option UploadedFile) : M (option str) :=
  match uploaded_file with
  | None => ret None
  | Some f =>
      (* Method 1: Try pdfplumber *)
      first <-
        try_except
          (pages <- open_with_pdfplumber svc f ;;
           text <- lift (pages_text pages []) ;;
           if truthy (strip text)
           then log INFO (ExtractedWithPdfplumber (len text)) ;;
                ret (Some (strip text))
           else ret None)
          (fun e => log WARNING (PdfplumberFailed e) ;; ret None) ;;
      match first with
      | Some t => ret (Some t)
      | None =>
          (* Method 2: Fallback to PyPDF2 *)
          second <-
            try_except
              (set_cursor 0 ;;   (* Reset file pointer *)
               pages <- read_with_pypdf2 svc f ;;
               text <- lift (pages_text pages []) ;;
               if truthy (strip text)
               then log INFO (ExtractedWithPyPDF2 (len text)) ;;
                    ret (Some (strip text))
               else ret None)
              (fun e => log ERROR (PyPDF2Failed e) ;; ret None) ;;
          match second with
          | Some t => ret (Some t)
          | None =>
              (* If all methods fail *)
              record_call (StError extraction_failed) ;;
              ret None
          end
      end
  end.

(** The [filename=] argument of the call to [text_to_audio_file] in
    [process_pdf_to_audio]. *)
Definition summary_filename (uploaded_name : str) : str :=
  PyStr.replace uploaded_name (lit ".pdf") [] ++ lit "_summary.mp3".

Definition mime : str := lit "audio/mp3".

(** [process_pdf_to_audio]: PDF, text, summary, audio.  [target_minutes]
    is [config['target_minutes']]. *)
Definition process_pdf_to_audio (svc : Services)
    (claude_client : ClaudeClient.ClaudeProcessor)
    (elevenlabs_client : ElevenLabs.ElevenLabsProcessor)
    (uploaded_file : UploadedFile) (target_minutes : Z) : M unit :=
  record_call (StProgress 0) ;;
  try_finally
    (try_except
       ((* Step 1: Extract text from PDF *)
        record_call (StStatusText
                       ([128196%N] ++ lit " Extracting text from PDF...")) ;;
        record_call (StProgress 20) ;;
        pdf_text <- extract_pdf_text svc (Some uploaded_file) ;;
        match pdf_text with
        | None | Some [] =>
            record_call (StError ([10060%N]
                                    ++ lit " Failed to extract text from PDF"))
        | Some pdf_text =>
            record_call (StExtractedWords
                           (Z.of_nat (List.length (split pdf_text)))) ;;
            (* Step 2: Generate summary with Claude *)
            record_call (StStatusText
                           ([129302%N]
                              ++ lit " Generating summary with Claude AI...")) ;;
            record_call (StProgress 40) ;;
            summary <- ClaudeClient.generate_summary svc claude_client
                         pdf_text target_minutes ;;
            let summary_words := Z.of_nat (List.length (split summary)) in
            record_call (StSuccess
                           ([9989%N] ++ lit " Summary generated ("
                              ++ PyStr.of_int summary_words ++ lit " words)")) ;;
            record_call (StExpanderWrite
                           ([128221%N] ++ lit " Preview Summary") summary) ;;
            (* Step 3: Generate audio with ElevenLabs *)
            record_call (StStatusText
                           ([127925%N]
                              ++ lit " Converting to audio with ElevenLabs...")) ;;
            record_call (StProgress 70) ;;
            audio_file <- ElevenLabs.text_to_audio_file svc elevenlabs_client
                            summary
                            (summary_filename (file_name uploaded_file)) ;;
            (* Step 4: Provide download *)
            record_call (StStatusText
                           ([9989%N] ++ lit " Processing complete!")) ;;
            record_call (StProgress 100) ;;
            record_call (StSuccess
                           ([127881%N] ++ lit " Audio summary ready!")) ;;
            record_call (StAudio (ElevenLabs.buffer audio_file) mime) ;;
            record_call (StDownloadButton
                           ([11015%N; 65039%N] ++ lit " Download MP3")
                           (ElevenLabs.buffer audio_file)
                           (ElevenLabs.name audio_file) mime) ;;
            (* Processing stats *)
            estimated_duration <-
              ElevenLabs.estimate_audio_duration summary 150 ;;
            record_call (StAudioDuration estimated_duration)
        end)
       (fun e =>
          record_call (StError ([10060%N] ++ lit " Processing failed: "
                                  ++ exn_str e)) ;;
          log ERROR (ProcessingPipelineError e)))
    ((* Clean up progress indicators *)
     record_call StProgressEmpty ;;
     record_call StStatusEmpty).

End App.

(** *** More of [streamlit_app.py] *)

(** The size test of [render_main_interface]:
    [len(uploaded_file.getvalue()) / (1024 * 1024) > config['max_size_mb']]. *)
Definition file_too_large (data : bytes) (max_size_mb : Z) : result bool :=
  match PyFloat.true_div (Z.of_nat (List.length data)) (1024 * 1024) with
  | Ok file_size_mb => Ok (PyFloat.int_lt max_size_mb file_size_mb)
  | Raise e => Raise e
  end.

(* ================================================================== *)
(** ** Vocabulary of the statements *)

(** [i] is the index of the last full stop of [s]. *)
Definition last_period_at (s : str) (i : Z) : Prop :=
  0 <= i /\ nth_error s (Z.to_nat i) = Some 46%N
  /\ forall j : nat, (Z.to_nat i < j)%nat -> nth_error s j <> Some 46%N.

(** [sub] occurs in [s]. *)
Definition contains (sub s : str) : Prop :=
  exists pre post, s = pre ++ sub ++ post.

(** The records logged once the response is in. *)
Definition length_check_records (word_count : Z) : list (level * log_msg) :=
  (INFO, GeneratedSummary word_count 450)
  :: (if word_count <? 315 then [(WARNING, SummaryShorter)]
      else if 585 <? word_count then [(WARNING, SummaryLonger)]
      else []).

(** The texts of the pages that have some, in the order of the pages. *)
Definition page_texts (pages : list (option str)) : list str :=
  flat_map (fun p => match p with
                     | Some t => if truthy t then [t] else []
                     | None => []
                     end) pages.

(** These texts, each followed by a blank line. *)
Definition join_pages (pages : list (option str)) : str :=
  List.concat (List.map (fun t => t ++ [10%N; 10%N]) (page_texts pages)).

(** A parser yields no text: opening the document raised, reading one of
    its pages raised, or the texts of its pages, joined, have nothing but
    white space. *)
Definition yields_nothing (r : result (list page)) : Prop :=
  match r with
  | Raise _ => True
  | Ok pages =>
      (exists e, In (Raise e) pages)
      \/ (exists ps, pages = List.map Ok ps /\ blank (join_pages ps))
  end.

(** The primary method, called on the file where its cursor stands, yields
    no text. *)
Definition primary_yields_nothing (svc : Services) (f : App.UploadedFile)
    (w : World) : Prop :=
  yields_nothing (fst (pdfplumber_open svc (App.getvalue f) (cursor w))).

(** What the pages hold when none of them raises on reading. *)
Fixpoint read_pages (pages : list page) : option (list (option str)) :=
  match pages with
  | [] => Some []
  | Ok p :: rest =>
      match read_pages rest with
      | Some ps => Some (p :: ps)
      | None => None
      end
  | Raise _ :: _ => None
  end.

(** The text a parser found in a document: the texts of its pages, joined
    in the order of the pages and stripped, when the document opened, every
    page was read and the result has something other than white space. *)
Definition parser_found (r : result (list page)) : option str :=
  match r with
  | Raise _ => None
  | Ok pages =>
      match read_pages pages with
      | None => None
      | Some ps =>
          if truthy (strip (join_pages ps))
          then Some (strip (join_pages ps))
          else None
      end
  end.

(** What a parser extracted: the stripped text of its pages, or nothing
    when it raised or found only white space. *)
Definition extracted (r : result (list page)) : option str :=
  match r with
  | Ok pages =>
      match App.pages_text pages [] with
      | Ok t => if truthy (strip t) then Some (strip t) else None
      | Raise _ => None
      end
  | Raise _ => None
  end.



(** [s] has a blank line (two line feeds) at index [j]. *)
Definition break_at (s : str) (j : nat) : Prop :=
  nth_error s j = Some 10%N /\ nth_error s (S j) = Some 10%N.

(** [i] is the index of the last blank line of [s]. *)
Definition last_break_at (s : str) (i : Z) : Prop :=
  0 <= i /\ break_at s (Z.to_nat i)
  /\ forall j : nat, (Z.to_nat i < j)%nat -> ~ break_at s j.

(** What [generate_audio] returns for what the service answered. *)
Definition audio_outcome (answer : result audio) (r : result bytes) : Prop :=
  match answer with
  | Ok (AudioBytes b) => r = Ok b
  | Ok (AudioChunks chunks None) => r = Ok (List.concat chunks)
  | Ok (AudioChunks _ (Some e)) | Raise e =>
      r = Raise (RuntimeError (lit "Failed to generate audio: " ++ exn_str e) e)
  end.

(** What [text_to_audio_file] returns for what the service answered: the
    audio under the requested name, read from its start, or the exception
    of [generate_audio]. *)
Definition file_outcome (answer : result audio) (filename : str)
    (r : result ElevenLabs.BytesIO) : Prop :=
  exists audio_data,
    audio_outcome answer audio_data
    /\ r = match audio_data with
           | Ok b => Ok {| ElevenLabs.buffer := b;
                           ElevenLabs.name := filename;
                           ElevenLabs.position := 0 |}
           | Raise e => Raise e
           end.


(** *** Values used by the examples *)

Definition empty_world : World := {| logged := []; calls := []; cursor := 0 |}.

(** The processors as [__init__] builds them. *)
Definition default_claude : ClaudeClient.ClaudeProcessor :=
  {| ClaudeClient.model := ClaudeClient.default_model;
     ClaudeClient.max_input_tokens := 100000;
     ClaudeClient.target_output_tokens := 2000 |}.

Definition default_eleven : ElevenLabs.ElevenLabsProcessor :=
  {| ElevenLabs.voice_id := ElevenLabs.default_voice_id;
     ElevenLabs.model_id := ElevenLabs.default_model_id;
     ElevenLabs.output_format := lit "mp3_44100_128" |}.

(** A text of 5101 characters whose only full stop is at index 4500. *)
Definition sample_summary : str :=
  repeat 97%N 4500 ++ lit "." ++ repeat 98%N 600.

(** Services that answer with nothing. *)
Definition silent_services : Services :=
  {| messages_create := fun _ _ _ _ => Ok {| content := [] |};
     text_to_speech_convert := fun _ _ _ _ => Ok (AudioBytes []);
     pdfplumber_open := fun _ p => (Ok [], p);
     pypdf2_reader := fun _ p => (Ok [], p) |}.

(** A scanned document: the first parser finds only white space on its
    pages, the second one finds text. *)
Definition scanned_services : Services :=
  {| messages_create := fun _ _ _ _ => Ok {| content := [] |};
     text_to_speech_convert := fun _ _ _ _ => Ok (AudioBytes []);
     pdfplumber_open := fun _ p => (Ok [Ok (Some (lit "  ")); Ok None], p + 7);
     pypdf2_reader :=
       fun _ p => (Ok [Ok (Some (lit "Page one.")); Ok (Some (lit "Page two. "))],
                   p + 7) |}.

Definition scanned_file : App.UploadedFile :=
  {| App.file_name := lit "scan.pdf";
     App.getvalue := [Byte.x25; Byte.x50; Byte.x44; Byte.x46] |}.

(** Services that answer: one page of text, a short summary, two chunks of
    audio. *)
Definition working_services : Services :=
  {| messages_create :=
       fun _ _ _ _ =>
         Ok {| content :=
                 [ {| text := lit " A short summary of the paper. " |} ] |};
     text_to_speech_convert :=
       fun _ _ _ _ => Ok (AudioChunks [[Byte.x49; Byte.x44]; [Byte.x33]] None);
     pdfplumber_open :=
       fun _ p => (Ok [Ok (Some (lit "A paper about rounding."))], p + 7);
     pypdf2_reader := fun _ p => (Ok [], p) |}.

(** An upload whose name has [.pdf] twice. *)
Definition backup_file : App.UploadedFile :=
  {| App.file_name := lit "notes.pdf.backup.pdf";
     App.getvalue := [Byte.x25; Byte.x50; Byte.x44; Byte.x46] |}.

(** 396003 times the letter a. *)
Definition long_text : str := repeat 97%N (Z.to_nat 396003).

(** A text of 400002 characters with one blank line, at index 350000. *)
Definition long_paper : str :=
  repeat 97%N (Z.to_nat 350000) ++ [10%N; 10%N] ++ repeat 98%N (Z.to_nat 50000).

(** A document of four pages, the second and third without text. *)
Definition paged_services : Services :=
  {| messages_create := messages_create silent_services;
     text_to_speech_convert := text_to_speech_convert silent_services;
     pdfplumber_open :=
       fun _ p =>
         (Ok (List.map Ok [Some (lit "Page one."); None; Some [];
                           Some (lit "Page two. ")]), p + 7);
     pypdf2_reader := pypdf2_reader silent_services |}.

(** The summarization service is down. *)
Definition failing_services : Services :=
  {| messages_create := fun _ _ _ _ => Raise (APIError (lit "overloaded"));
     text_to_speech_convert := text_to_speech_convert working_services;
     pdfplumber_open := pdfplumber_open working_services;
     pypdf2_reader := pypdf2_reader working_services |}.


(** 300 words. *)
Definition three_hundred_words : str := List.concat (repeat (lit "word ") 300).

(* ================================================================== *)
(** * Properties *)

Unset Implicit Arguments.

(** ** Strings *)

Section StrFacts.

Lemma lstrip_nil_blank (s : str) : lstrip s = [] <-> blank s.
Proof.
  unfold blank. induction s as [|c r IH]; simpl.
  - split; auto.
  - destruct (isspace c) eqn:Hc.
    + rewrite IH. split; intro H.
      * constructor; assumption.
      * apply Forall_inv_tail in H; assumption.
    + split; intro H; [discriminate|].
      apply Forall_inv in H. simpl in H. congruence.
Qed.

Lemma lstrip_head (s : str) (c : char) (r : str) :
  lstrip s = c :: r -> isspace c = false.
Proof.
  induction s as [|a t IH]; simpl; [discriminate|].
  destruct (isspace a) eqn:Ha; [exact IH|].
  intro H; inversion H; subst; assumption.
Qed.

Lemma blank_rev (s : str) : blank (rev s) <-> blank s.
Proof.
  unfold blank. rewrite !Forall_forall.
  split; intros H x Hx; apply H; [apply in_rev in Hx | apply in_rev];
    try rewrite rev_involutive; assumption.
Qed.

(** The test [not s.strip()] of the source holds exactly for the blank
    strings. *)
Lemma strip_truthy_blank (s : str) : truthy (strip s) = false <-> blank s.
Proof.
  unfold strip, rstrip. split.
  - intro H.
    assert (Hr : rev (lstrip (rev (lstrip s))) = [])
      by (destruct (rev (lstrip (rev (lstrip s)))); [reflexivity|discriminate]).
    apply (f_equal (@rev char)) in Hr. rewrite rev_involutive in Hr. simpl in Hr.
    apply (proj1 (lstrip_nil_blank _)) in Hr.
    apply (proj1 (blank_rev _)) in Hr.
    destruct (lstrip s) as [|c r] eqn:Hl.
    + apply lstrip_nil_blank; assumption.
    + apply lstrip_head in Hl. apply Forall_inv in Hr. simpl in Hr.
      congruence.
  - intro H. apply lstrip_nil_blank in H. rewrite H. reflexivity.
Qed.

Lemma strip_truthy_not_blank (s : str) : truthy (strip s) = true <-> ~ blank s.
Proof.
  rewrite <- strip_truthy_blank. destruct (truthy (strip s)); split; congruence.
Qed.

Lemma len_nonneg (s : str) : 0 <= len s.
Proof. unfold len; lia. Qed.

Lemma slice_to_prefix (s : str) (n : Z) : is_prefix (slice_to s n) s.
Proof.
  unfold slice_to, is_prefix.
  eexists. symmetry. apply firstn_skipn.
Qed.

Lemma is_prefix_refl (s : str) : is_prefix s s.
Proof. exists []. rewrite app_nil_r; reflexivity. Qed.

Lemma is_prefix_trans (a b c : str) :
  is_prefix a b -> is_prefix b c -> is_prefix a c.
Proof.
  intros [x ->] [y ->]. exists (x ++ y). rewrite app_assoc; reflexivity.
Qed.

Lemma is_prefix_len (a b : str) : is_prefix a b -> len a <= len b.
Proof.
  intros [x ->]. unfold len. rewrite length_app. lia.
Qed.

Lemma slice_to_len (s : str) (n : Z) :
  0 <= n -> len (slice_to s n) = Z.min n (len s).
Proof.
  intro Hn. unfold slice_to.
  destruct (n <? 0) eqn:E; [apply Z.ltb_lt in E; lia|].
  unfold len. rewrite length_firstn. lia.
Qed.

Lemma slice_to_all (s : str) (n : Z) : len s <= n -> slice_to s n = s.
Proof.
  intro H. unfold slice_to. pose proof (len_nonneg s) as Hs.
  destruct (n <? 0) eqn:E; [apply Z.ltb_lt in E; lia|].
  apply firstn_all2. unfold len in *. lia.
Qed.

Lemma slice_to_firstn (s : str) (n : Z) :
  0 <= n -> slice_to s n = firstn (Z.to_nat n) s.
Proof.
  intro Hn. unfold slice_to.
  destruct (n <? 0) eqn:E; [apply Z.ltb_lt in E; lia|].
  destruct (Z.min_spec n (len s)) as [[H ->]|[H ->]]; [reflexivity|].
  unfold len in *. rewrite !firstn_all2; [reflexivity|lia|lia].
Qed.

Lemma startswith_length (sub s : str) :
  startswith sub s = true -> (List.length sub <= List.length s)%nat.
Proof.
  revert s. induction sub as [|a sub IH]; intros [|b s]; simpl; intro H;
    try lia; try discriminate.
  apply andb_prop in H. destruct H as [_ H]. apply IH in H. lia.
Qed.

(** [rfind] returns -1 or the index of an occurrence that fits. *)
Lemma rfind_from_range (sub s : str) (i best : Z) :
  rfind_from sub s i best = best
  \/ (i <= rfind_from sub s i best
      /\ rfind_from sub s i best + len sub <= i + len s).
Proof.
  revert i best. induction s as [|c r IH]; intros i best.
  - simpl. destruct sub; simpl; [right; unfold len; simpl; lia | left; reflexivity].
  - cbn [rfind_from].
    destruct (IH (i + 1) (if startswith sub (c :: r) then i else best))
      as [E|[H1 H2]].
    + rewrite E. destruct (startswith sub (c :: r)) eqn:Hs; [|left; reflexivity].
      right. apply startswith_length in Hs. unfold len. lia.
    + right. unfold len in *. simpl List.length. lia.
Qed.

Lemma rfind_range (s sub : str) :
  rfind s sub = -1 \/ (0 <= rfind s sub /\ rfind s sub + len sub <= len s).
Proof.
  unfold rfind.
  destruct (rfind_from_range sub s 0 (-1)) as [H|H]; [left|right]; lia.
Qed.

Lemma rfind_from_spec (sub s : str) (i best : Z) :
  (rfind_from sub s i best = best
   /\ forall k, (k <= List.length s)%nat -> startswith sub (skipn k s) = false)
  \/ (exists k, (k <= List.length s)%nat
        /\ rfind_from sub s i best = i + Z.of_nat k
        /\ startswith sub (skipn k s) = true
        /\ forall j, (k < j <= List.length s)%nat ->
                     startswith sub (skipn j s) = false).
Proof.
  revert i best. induction s as [|c r IH]; intros i best.
  - cbn [rfind_from]. destruct (startswith sub []) eqn:E.
    + right. exists 0%nat. simpl. repeat split; try lia; try assumption.
    + left. split; [reflexivity|]. intros k Hk. simpl in Hk.
      replace k with 0%nat by lia. exact E.
  - cbn [rfind_from].
    destruct (IH (i + 1) (if startswith sub (c :: r) then i else best))
      as [[E N]|(k & Hk & E & Hm & Hn)]; rewrite E.
    + destruct (startswith sub (c :: r)) eqn:Hs.
      * right. exists 0%nat. simpl List.length.
        repeat split; try lia; try assumption.
        intros [|j] Hj; [lia|]. simpl. apply N. lia.
      * left. split; [reflexivity|].
        intros [|k] Hk; [exact Hs|]. simpl. apply N. simpl in Hk. lia.
    + right. exists (S k). simpl List.length. repeat split; try lia; try assumption.
      intros [|j] Hj; [lia|]. simpl. apply Hn. lia.
Qed.

Lemma nth_error_some_lt {A : Type} (l : list A) (k : nat) (x : A) :
  nth_error l k = Some x -> (k < List.length l)%nat.
Proof. intro H. apply nth_error_Some. rewrite H. discriminate. Qed.

Lemma startswith_period (s : str) (k : nat) :
  startswith ElevenLabs.period (skipn k s) = true <-> nth_error s k = Some 46%N.
Proof.
  change ElevenLabs.period with [46%N].
  revert k. induction s as [|c r IH]; intros [|k];
    cbn [startswith skipn nth_error]; try (split; discriminate).
  - rewrite andb_true_r, N.eqb_eq. split; intro H.
    + subst; reflexivity.
    + inversion H; reflexivity.
  - apply IH.
Qed.

Lemma rfind_period_last (s : str) (i : Z) :
  last_period_at s i <-> (0 <= i /\ rfind s ElevenLabs.period = i).
Proof.
  unfold rfind.
  destruct (rfind_from_spec ElevenLabs.period s 0 (-1))
    as [[E N]|(k & Hk & E & Hm & Hn)]; rewrite E.
  - split.
    + intros (H0 & Hi & _). exfalso.
      pose proof (nth_error_some_lt s _ _ Hi) as L.
      apply startswith_period in Hi. rewrite N in Hi by lia. discriminate.
    + intros [H0 H1]. lia.
  - apply startswith_period in Hm. split.
    + intros (H0 & Hi & Hlast). split; [assumption|].
      destruct (Nat.lt_trichotomy k (Z.to_nat i)) as [L|[L|L]].
      * pose proof (nth_error_some_lt s _ _ Hi) as Li.
        apply startswith_period in Hi. rewrite Hn in Hi by lia. discriminate.
      * lia.
      * exfalso. exact (Hlast k L Hm).
    + intros [H0 H1]. assert (Ei : Z.to_nat i = k) by lia.
      unfold last_period_at. rewrite Ei. repeat split; try assumption.
      intros j Hj Hc.
      pose proof (nth_error_some_lt s _ _ Hc) as Lj.
      apply startswith_period in Hc. rewrite Hn in Hc by lia. discriminate.
Qed.

Lemma rfind_period_none (s : str) :
  rfind s ElevenLabs.period = -1 <-> ~ In 46%N s.
Proof.
  pose proof (rfind_range s ElevenLabs.period) as R.
  split.
  - intros E Hin. apply In_nth_error in Hin. destruct Hin as [k Hk].
    unfold rfind in E.
    destruct (rfind_from_spec ElevenLabs.period s 0 (-1))
      as [[_ N]|(k' & _ & E' & _)]; [|lia].
    pose proof (nth_error_some_lt s k _ Hk) as Lk.
    apply startswith_period in Hk. rewrite N in Hk by lia. discriminate.
  - intro Hn. destruct R as [R|[R0 R1]]; [assumption|exfalso].
    apply Hn. destruct (proj2 (rfind_period_last s _) (conj R0 eq_refl))
      as (_ & Hi & _).
    eapply nth_error_In; eassumption.
Qed.

Lemma startswith_app (sub s : str) :
  startswith sub s = true -> exists post, s = sub ++ post.
Proof.
  revert s. induction sub as [|a sub IH]; intros s H.
  - exists s. reflexivity.
  - destruct s as [|b s]; [discriminate|].
    cbn [startswith] in H. apply andb_prop in H. destruct H as [Hab H].
    apply N.eqb_eq in Hab. subst b.
    destruct (IH s H) as [post ->]. exists post. reflexivity.
Qed.

Lemma occurs_contains (sub s : str) : occurs sub s = true -> contains sub s.
Proof.
  induction s as [|c r IH]; cbn [occurs]; intro H.
  - rewrite orb_false_r in H. apply startswith_app in H.
    destruct H as [post ->]. exists [], post. reflexivity.
  - apply orb_prop in H. destruct H as [H|H].
    + apply startswith_app in H. destruct H as [post ->].
      exists [], post. reflexivity.
    + destruct (IH H) as (pre & post & ->). exists (c :: pre), post. reflexivity.
Qed.

Lemma contains_app_r (sub a t : str) : contains sub t -> contains sub (a ++ t).
Proof.
  intros (pre & post & ->). exists (a ++ pre), post.
  rewrite app_assoc. reflexivity.
Qed.

Lemma contains_span (sub a b c rest : str) :
  occurs sub (a ++ b ++ c) = true -> contains sub (a ++ b ++ c ++ rest).
Proof.
  intro H. apply occurs_contains in H. destruct H as (pre & post & E).
  exists pre, (post ++ rest).
  rewrite !app_assoc. rewrite !app_assoc in E. rewrite E. reflexivity.
Qed.

End StrFacts.

(** ** Floats *)

Section FloatFacts.

Import PyFloat.


Lemma digits2_pos_lower (m : positive) :
  2 ^ (Zpos (digits2_pos m) - 1) <= Zpos m.
Proof.
  induction m as [m IH|m IH|]; cbn [digits2_pos].
  - rewrite Pos2Z.inj_succ.
    replace (Z.succ (Zpos (digits2_pos m)) - 1)
      with (Z.succ (Zpos (digits2_pos m) - 1)) by lia.
    rewrite Z.pow_succ_r by lia. lia.
  - rewrite Pos2Z.inj_succ.
    replace (Z.succ (Zpos (digits2_pos m)) - 1)
      with (Z.succ (Zpos (digits2_pos m) - 1)) by lia.
    rewrite Z.pow_succ_r by lia. lia.
  - simpl. lia.
Qed.

Lemma digits2_pos_small (m : positive) :
  Zpos m < 2 ^ 53 -> Zpos (digits2_pos m) <= 53.
Proof.
  intro H. pose proof (digits2_pos_lower m) as L.
  destruct (Z_le_gt_dec (Zpos (digits2_pos m)) 53) as [|G]; [assumption|exfalso].
  assert (2 ^ 53 <= 2 ^ (Zpos (digits2_pos m) - 1)) by (apply Z.pow_le_mono_r; lia).
  lia.
Qed.

Lemma digits2_pos_iter (m d : positive) :
  Zpos (digits2_pos (Pos.iter xO m d)) = Zpos (digits2_pos m) + Zpos d.
Proof.
  induction d as [|d IH] using Pos.peano_ind.
  - simpl. lia.
  - rewrite Pos.iter_succ. cbn [digits2_pos]. lia.
Qed.

Lemma shr_fexp_fixed (m : positive) (e : Z) :
  fexp prec emax (Zpos (digits2_pos m) + e) = e ->
  shr_fexp prec emax (Zpos m) e loc_Exact
  = ({| shr_m := Zpos m; shr_r := false; shr_s := false |}, e).
Proof.
  intro H. unfold shr_fexp. cbn [Zdigits2]. rewrite H, Z.sub_diag. reflexivity.
Qed.

Lemma binary_round_aux_fixed (s : bool) (m : positive) (e : Z) :
  fexp prec emax (Zpos (digits2_pos m) + e) = e -> e <= emax - prec ->
  binary_round_aux prec emax s (Zpos m) e loc_Exact = S754_finite s m e.
Proof.
  intros H He. unfold binary_round_aux.
  rewrite (shr_fexp_fixed _ _ H). cbn [shr_m loc_of_shr_record round_nearest_even].
  rewrite (shr_fexp_fixed _ _ H). cbn [shr_m].
  apply Z.leb_le in He. rewrite He. reflexivity.
Qed.

Lemma binary_round_small (s : bool) (m : positive) :
  Zpos m < 2 ^ 53 ->
  exists m' e', binary_round prec emax s m 0 = S754_finite s m' e'.
Proof.
  intro H. apply digits2_pos_small in H.
  unfold binary_round, shl_align.
  rewrite Z.add_0_r.
  assert (Hf : fexp prec emax (Zpos (digits2_pos m)) = Zpos (digits2_pos m) - 53).
  { unfold fexp, emin, prec, emax. lia. }
  rewrite Hf, Z.sub_0_r.
  destruct (Zpos (digits2_pos m) - 53) as [|p|p] eqn:E; try lia.
  - eexists _, _. apply binary_round_aux_fixed.
    + rewrite Z.add_0_r. lia.
    + unfold emax, prec. lia.
  - eexists _, _. apply binary_round_aux_fixed.
    + rewrite digits2_pos_iter. unfold fexp, emin, prec, emax. lia.
    + unfold emax, prec. lia.
Qed.

Lemma of_int_small (n : Z) :
  Z.abs n < 2 ^ 53 -> exists f, of_int n = Ok f.
Proof.
  intro H. unfold of_int, nearest_int, binary_normalize.
  destruct n as [|m|m].
  - eexists; reflexivity.
  - destruct (binary_round_small false m) as (m' & e' & ->); [exact H|].
    eexists; reflexivity.
  - destruct (binary_round_small true m) as (m' & e' & ->); [exact H|].
    eexists; reflexivity.
Qed.


Lemma round_half_even_bounds (n d : Z) :
  0 < d -> n / d <= round_half_even n d <= n / d + 1.
Proof.
  intro Hd. unfold round_half_even.
  destruct (2 * (n mod d) ?= d); [destruct (Z.even (n / d))| |]; lia.
Qed.

Lemma round_half_even_mono (n1 n2 d : Z) :
  0 < d -> n1 <= n2 -> round_half_even n1 d <= round_half_even n2 d.
Proof.
  intros Hd Hn.
  pose proof (Z.div_le_mono n1 n2 d Hd Hn) as Hq.
  pose proof (round_half_even_bounds n1 d Hd) as B1.
  pose proof (round_half_even_bounds n2 d Hd) as B2.
  destruct (Z.eq_dec (n1 / d) (n2 / d)) as [E|NE]; [|lia].
  pose proof (Z.div_mod n1 d ltac:(lia)) as D1.
  pose proof (Z.div_mod n2 d ltac:(lia)) as D2.
  assert (Hr : n1 mod d <= n2 mod d) by (rewrite E in D1; nia).
  unfold round_half_even in *. rewrite E in *.
  destruct (Z.compare_spec (2 * (n1 mod d)) d);
    destruct (Z.compare_spec (2 * (n2 mod d)) d);
    destruct (Z.even (n2 / d)); lia.
Qed.

Lemma round_half_even_upper (n d k : Z) :
  0 < d -> n < d * k -> round_half_even n d <= k.
Proof.
  intros Hd H. pose proof (round_half_even_bounds n d Hd).
  assert (n / d < k) by (apply Z.div_lt_upper_bound; assumption). lia.
Qed.

Lemma round_half_even_lower (n d k : Z) :
  0 < d -> d * k <= n -> k <= round_half_even n d.
Proof.
  intros Hd H. pose proof (round_half_even_bounds n d Hd).
  assert (k <= n / d) by (apply Z.div_le_lower_bound; assumption). lia.
Qed.

Lemma log2_upper (n : Z) : 0 <= n -> n < 2 ^ (Z.log2 n + 1).
Proof.
  intro H. destruct (Z.eq_dec n 0) as [->|NZ]; [reflexivity|].
  replace (Z.log2 n + 1) with (Z.succ (Z.log2 n)) by lia.
  apply Z.log2_spec. lia.
Qed.

Lemma div_units_mono (a1 a2 b : Z) :
  0 <= a1 -> a1 <= a2 -> 0 < b -> div_units a1 b <= div_units a2 b.
Proof.
  intros H1 H12 Hb. unfold div_units, div_round.
  set (A1 := a1 * 2 ^ 1074). set (A2 := a2 * 2 ^ 1074).
  assert (HA : A1 <= A2) by (subst A1 A2; apply Z.mul_le_mono_nonneg_r; lia).
  assert (HA1 : 0 <= A1) by (subst A1; lia).
  clearbody A1 A2.
  assert (HN1 : 0 <= A1 / b) by (apply Z.div_pos; lia).
  assert (HN : A1 / b <= A2 / b) by (apply Z.div_le_mono; lia).
  pose proof (Z.log2_le_mono _ _ HN) as HL.
  set (s1 := Z.max 0 (Z.log2 (A1 / b) - 52)).
  set (s2 := Z.max 0 (Z.log2 (A2 / b) - 52)).
  assert (Hs1 : 0 <= s1) by (subst s1; lia).
  assert (Hs12 : s1 <= s2) by (subst s1 s2; lia).
  assert (Hp1 : 0 < 2 ^ s1) by (apply Z.pow_pos_nonneg; lia).
  assert (Hp2 : 0 < 2 ^ s2) by (apply Z.pow_pos_nonneg; lia).
  destruct (Z.eq_dec s1 s2) as [E|NE].
  - rewrite <- E. apply Z.mul_le_mono_nonneg_r; [lia|].
    apply round_half_even_mono; nia.
  - assert (Hlt : s1 < s2) by lia.
    (* the larger quotient fills its 53 bits *)
    assert (Hs2 : Z.log2 (A2 / b) = 52 + s2).
    { clear - Hs1 Hlt. subst s2. clearbody s1. lia. }
    assert (HN2pos : 0 < A2 / b).
    { destruct (Z.eq_dec (A2 / b) 0) as [Z0|]; [|lia].
      rewrite Z0 in Hs2. change (Z.log2 0) with 0 in Hs2. lia. }
    assert (Hlow : 2 ^ (52 + s2) <= A2 / b).
    { rewrite <- Hs2. apply Z.log2_spec. assumption. }
    assert (Hm2 : 2 ^ 52 <= round_half_even A2 (b * 2 ^ s2)).
    { apply round_half_even_lower; [nia|].
      rewrite Z.pow_add_r in Hlow by lia.
      pose proof (Z.mul_div_le A2 b Hb). nia. }
    (* the smaller one stays below 2^53 in its own scale *)
    assert (Hup : A1 / b < 2 ^ (53 + s1)).
    { pose proof (log2_upper (A1 / b) HN1) as U.
      eapply Z.lt_le_trans; [exact U|]. apply Z.pow_le_mono_r; subst s1; lia. }
    assert (Hm1 : round_half_even A1 (b * 2 ^ s1) <= 2 ^ 53).
    { apply round_half_even_upper; [nia|].
      rewrite Z.pow_add_r in Hup by lia.
      pose proof (Z.mod_pos_bound A1 b Hb).
      pose proof (Z.div_mod A1 b ltac:(lia)). nia. }
    assert (Hpow : 2 ^ 53 * 2 ^ s1 <= 2 ^ 52 * 2 ^ s2).
    { rewrite <- !Z.pow_add_r by lia. apply Z.pow_le_mono_r; lia. }
    nia.
Qed.

Lemma signed_sign (s : bool) (m : positive) :
  if s then signed s m < 0 else 0 < signed s m.
Proof. destruct s; simpl; lia. Qed.

Lemma leb_units (x y : float) :
  finite_above x -> finite_above y -> leb x y = (units x <=? units y).
Proof.
  destruct x as [sx|sx| |sx mx ex]; destruct y as [sy|sy| |sy my ey];
    simpl; try contradiction; intros Hx Hy.
  - reflexivity.
  - pose proof (signed_sign sy my) as S.
    assert (0 < 2 ^ (ey + 1074)) by (apply Z.pow_pos_nonneg; lia).
    unfold leb; simpl. destruct sy; symmetry;
      [apply Z.leb_gt | apply Z.leb_le]; nia.
  - pose proof (signed_sign sx mx) as S.
    assert (0 < 2 ^ (ex + 1074)) by (apply Z.pow_pos_nonneg; lia).
    unfold leb; simpl. destruct sx; symmetry;
      [apply Z.leb_le | apply Z.leb_gt]; nia.
  - unfold leb, cmp.
    set (e0 := Z.min ex ey).
    assert (Px : 2 ^ (ex + 1074) = 2 ^ (ex - e0) * 2 ^ (e0 + 1074)).
    { rewrite <- Z.pow_add_r by (subst e0; lia). f_equal; lia. }
    assert (Py : 2 ^ (ey + 1074) = 2 ^ (ey - e0) * 2 ^ (e0 + 1074)).
    { rewrite <- Z.pow_add_r by (subst e0; lia). f_equal; lia. }
    assert (P0 : 0 < 2 ^ (e0 + 1074)) by (apply Z.pow_pos_nonneg; subst e0; lia).
    rewrite Px, Py, !Z.mul_assoc.
    generalize (signed sx mx * 2 ^ (ex - e0)) (signed sy my * 2 ^ (ey - e0)).
    revert P0. generalize (2 ^ (e0 + 1074)). clear.
    intros P HP a b.
    destruct (Z.compare_spec a b); symmetry;
      [apply Z.leb_le | apply Z.leb_le | apply Z.leb_gt]; nia.
Qed.

Lemma pack_units (s : bool) (m e : Z) :
  0 <= m -> -1074 <= e <= 970 ->
  exists f, pack s m e = Ok f /\ finite_above f
            /\ units f = (if s then - m else m) * 2 ^ (e + 1074).
Proof.
  intros Hm He. unfold pack.
  destruct m as [|p|p]; [| |lia].
  - exists (S754_zero s). simpl. destruct s; auto.
  - destruct (Z.pos p =? 2 ^ 53) eqn:E.
    + apply Z.eqb_eq in E.
      replace (e + 1 <=? emax - prec) with true
        by (symmetry; apply Z.leb_le; unfold emax, prec; lia).
      eexists; split; [reflexivity|]. split; [simpl; lia|].
      unfold units. rewrite E.
      replace (e + 1 + 1074) with (1 + (e + 1074)) by lia.
      rewrite Z.pow_add_r by lia.
      destruct s; reflexivity || (simpl signed; lia).
    + replace (e <=? emax - prec) with true
        by (symmetry; apply Z.leb_le; unfold emax, prec; lia).
      eexists; split; [reflexivity|]. split; [simpl; lia|].
      unfold units. destruct s; reflexivity.
Qed.

Lemma div_round_shape (a b : Z) :
  0 <= a < 2 ^ 1000 -> 0 < b ->
  0 <= fst (div_round a b) /\ 0 <= snd (div_round a b) <= 2044.
Proof.
  intros Ha Hb. unfold div_round. cbn [fst snd].
  set (A := a * 2 ^ 1074).
  assert (HA : 0 <= A) by (subst A; lia).
  assert (HN : 0 <= A / b) by (apply Z.div_pos; lia).
  assert (HU : A / b < 2 ^ 2074).
  { apply Z.le_lt_trans with A.
    - apply Z.div_le_upper_bound; [lia|]. clearbody A. nia.
    - subst A. change (2 ^ 2074) with (2 ^ 1000 * 2 ^ 1074).
      apply Z.mul_lt_mono_pos_r; [reflexivity|lia]. }
  assert (HL : Z.log2 (A / b) < 2074).
  { destruct (Z.eq_dec (A / b) 0) as [->|NZ]; [reflexivity|].
    apply Z.log2_lt_pow2; lia. }
  clearbody A. split.
  - set (s := Z.max 0 (Z.log2 (A / b) - 52)).
    assert (0 < 2 ^ s) by (apply Z.pow_pos_nonneg; subst s; lia).
    pose proof (round_half_even_bounds A (b * 2 ^ s) ltac:(nia)).
    assert (0 <= A / (b * 2 ^ s)) by (apply Z.div_pos; nia). lia.
  - lia.
Qed.

Lemma true_div_units (a b : Z) :
  0 <= a < 2 ^ 1000 -> 0 < b ->
  exists f, true_div a b = Ok f /\ finite_above f /\ units f = div_units a b.
Proof.
  intros Ha Hb. unfold true_div, div_units.
  pose proof (div_round_shape a b Ha Hb) as [Hm Hs].
  replace (b =? 0) with false by (symmetry; apply Z.eqb_neq; lia).
  replace (a <? 0) with false by (symmetry; apply Z.ltb_ge; lia).
  replace (b <? 0) with false by (symmetry; apply Z.ltb_ge; lia).
  rewrite !Z.abs_eq by lia.
  destruct (div_round a b) as [m shift]. cbn [fst snd xorb] in *.
  destruct (pack_units false m (shift - 1074) Hm ltac:(lia)) as (f & E & F & U).
  exists f. repeat split; try assumption.
  rewrite U. f_equal. f_equal. lia.
Qed.

Lemma true_div_mono (a1 a2 b : Z) :
  0 <= a1 -> a1 <= a2 -> a2 < 2 ^ 1000 -> 0 < b ->
  exists f1 f2, true_div a1 b = Ok f1 /\ true_div a2 b = Ok f2
                /\ leb f1 f2 = true.
Proof.
  intros H1 H12 H2 Hb.
  destruct (true_div_units a1 b ltac:(lia) Hb) as (f1 & E1 & F1 & U1).
  destruct (true_div_units a2 b ltac:(lia) Hb) as (f2 & E2 & F2 & U2).
  exists f1, f2. repeat split; try assumption.
  rewrite (leb_units f1 f2 F1 F2), U1, U2.
  apply Z.leb_le, div_units_mono; assumption.
Qed.

(** [true_div] agrees with the division of the standard library's
    specification of binary64 on sample quotients: exact ones, ties at 53
    bits, subnormal results. *)
Example true_div_agrees_with_SFdiv :
  true_div 2 150 = Ok (SFdiv prec emax (whole 2) (whole 150))
  /\ true_div 450 150 = Ok (SFdiv prec emax (whole 450) (whole 150))
  /\ true_div 1 3 = Ok (SFdiv prec emax (whole 1) (whole 3))
  /\ true_div 123456789012345678901234567890 7
     = Ok (SFdiv prec emax (whole 123456789012345678901234567890) (whole 7))
  /\ true_div 9007199254740993 1
     = Ok (SFdiv prec emax (whole 9007199254740993) (whole 1))
  /\ true_div 9007199254740995 1
     = Ok (SFdiv prec emax (whole 9007199254740995) (whole 1))
  /\ true_div 18014398509481983 1
     = Ok (SFdiv prec emax (whole 18014398509481983) (whole 1))
  /\ true_div 3 (2 ^ 1075)
     = Ok (SFdiv prec emax (whole 3) (whole (Z.to_pos (2 ^ 1075))))
  /\ true_div 5 (2 ^ 1075)
     = Ok (SFdiv prec emax (whole 5) (whole (Z.to_pos (2 ^ 1075))))
  /\ true_div 1 (3 * 2 ^ 1030)
     = Ok (SFdiv prec emax (whole 1) (whole (Z.to_pos (3 * 2 ^ 1030)))).
Proof. repeat split; vm_compute; reflexivity. Qed.

(** The literals of the source and the thresholds they give. *)
Example literals_and_thresholds :
  f0_8 = S754_finite false 7205759403792794 (-53)
  /\ f0_7 = S754_finite false 6305039478318694 (-53)
  /\ f1_3 = S754_finite false 5854679515581645 (-52)
  /\ int_mul 3 f0_8 = Ok (S754_finite false 5404319552844596 (-51))
  /\ int_gt 2 (S754_finite false 5404319552844596 (-51)) = false
  /\ int_gt 3 (S754_finite false 5404319552844596 (-51)) = true.
Proof. repeat split; vm_compute; reflexivity. Qed.

End FloatFacts.

(** ** The two truncation guards *)

Section Truncation.

Import ClaudeClient ElevenLabs.

Lemma int_mul_small (n : Z) (x : PyFloat.float) :
  Z.abs n < 2 ^ 53 -> exists t, PyFloat.int_mul n x = Ok t.
Proof.
  intro H. unfold PyFloat.int_mul.
  destruct (of_int_small n H) as [f ->]. eexists; reflexivity.
Qed.

(** What [truncate_pdf_content] returns: the text itself when it fits, else
    one of the two cuts. *)
Lemma truncate_pdf_content_run
    (self : ClaudeProcessor) (pdf_text : str) (w : World) :
  Z.abs ((max_input_tokens self - 1000) * 4) < 2 ^ 53 ->
  exists r w', truncate_pdf_content self pdf_text w = (Ok r, w')
    /\ calls w' = calls w
    /\ ((estimate_tokens pdf_text <= max_input_tokens self - 1000
         /\ r = pdf_text /\ w' = w)
        \/ (max_input_tokens self - 1000 < estimate_tokens pdf_text
            /\ let truncated :=
                 slice_to pdf_text ((max_input_tokens self - 1000) * 4) in
               r = truncated
               \/ r = slice_to truncated (rfind truncated paragraph_break))).
Proof.
  intro Hb. unfold truncate_pdf_content.
  destruct (estimate_tokens pdf_text <=? max_input_tokens self - 1000) eqn:E.
  - apply Z.leb_le in E. exists pdf_text, w. unfold ret.
    split; [reflexivity|]. split; [reflexivity|]. left; auto.
  - apply Z.leb_gt in E.
    destruct (int_mul_small _ PyFloat.f0_8 Hb) as [t Ht].
    unfold bind, log, lift, ret. rewrite Ht. cbn [logged calls cursor].
    eexists _, _. split; [reflexivity|]. split; [reflexivity|].
    right. split; [assumption|].
    destruct (PyFloat.int_gt _ t); auto.
Qed.

Lemma validate_text_length_run (text : str) (max_chars : Z) (w : World) :
  ~ blank text -> Z.abs max_chars < 2 ^ 53 ->
  exists r w', validate_text_length text max_chars w = (Ok r, w')
    /\ calls w' = calls w
    /\ ((len text <= max_chars /\ r = text /\ w' = w)
        \/ (max_chars < len text
            /\ exists t, PyFloat.int_mul max_chars PyFloat.f0_8 = Ok t
            /\ let truncated := slice_to text max_chars in
               let last_sentence := rfind truncated period in
               r = if PyFloat.int_gt last_sentence t
                   then slice_to truncated (last_sentence + 1)
                   else truncated)).
Proof.
  intros Hn Hb. unfold validate_text_length.
  apply strip_truthy_not_blank in Hn. rewrite Hn. cbn [negb].
  destruct (len text <=? max_chars) eqn:E.
  - apply Z.leb_le in E. exists text, w. unfold ret.
    split; [reflexivity|]. split; [reflexivity|]. left; auto.
  - apply Z.leb_gt in E.
    destruct (int_mul_small _ PyFloat.f0_8 Hb) as [t Ht].
    unfold bind, log, lift, ret. rewrite Ht. cbn [logged calls cursor].
    eexists _, _. split; [reflexivity|]. split; [reflexivity|].
    right. split; [assumption|]. exists t. split; reflexivity.
Qed.

Lemma validate_text_length_blank (text : str) (max_chars : Z) (w : World) :
  blank text ->
  validate_text_length text max_chars w
  = (Raise (ValueError (lit "Text cannot be empty")), w).
Proof.
  intro H. unfold validate_text_length.
  apply strip_truthy_blank in H. rewrite H. reflexivity.
Qed.

Lemma threshold_5000 :
  PyFloat.int_mul 5000 PyFloat.f0_8 = Ok (S754_finite false 8796093022208000 (-41)).
Proof. vm_compute. reflexivity. Qed.

Lemma int_gt_4000 (k : Z) :
  PyFloat.int_gt k (S754_finite false 8796093022208000 (-41)) = (4000 <? k).
Proof.
  unfold PyFloat.int_gt, PyFloat.cmp_int.
  change (0 <=? -41) with false. cbv iota.
  change (2 ^ (- -41)) with 2199023255552.
  destruct (Z.compare_spec (k * 2199023255552) 8796093022208000);
    symmetry; [apply Z.ltb_ge | apply Z.ltb_ge | apply Z.ltb_lt]; lia.
Qed.

Lemma slice_to_slice_to (s : str) (a b : Z) :
  0 <= a <= b -> slice_to (slice_to s b) a = slice_to s a.
Proof.
  intro H. rewrite !slice_to_firstn by lia.
  rewrite firstn_firstn. f_equal. lia.
Qed.

Lemma truncate_pdf_content_short
    (self : ClaudeProcessor) (pdf_text : str) (w : World) :
  estimate_tokens pdf_text <= max_input_tokens self - 1000 ->
  truncate_pdf_content self pdf_text w = (Ok pdf_text, w).
Proof.
  intro Hs. unfold truncate_pdf_content.
  apply Z.leb_le in Hs. rewrite Hs. reflexivity.
Qed.

Lemma validate_text_length_short (text : str) (max_chars : Z) (w : World) :
  ~ blank text -> len text <= max_chars ->
  validate_text_length text max_chars w = (Ok text, w).
Proof.
  intros Hn Hl. unfold validate_text_length.
  apply strip_truthy_not_blank in Hn. rewrite Hn.
  apply Z.leb_le in Hl. rewrite Hl. reflexivity.
Qed.

(** C6.  A text already within the limit is returned unchanged by both
    guards, and nothing is logged: [truncate_pdf_content] when the estimated
    token count is at most [max_input_tokens - 1000], [validate_text_length]
    when the text is not blank and has at most [max_chars] characters. *)
Theorem truncation_unchanged_on_short
    (self : ClaudeProcessor) (pdf_text text : str) (max_chars : Z) (w : World) :
  estimate_tokens pdf_text <= max_input_tokens self - 1000 ->
  ~ blank text -> len text <= max_chars ->
  truncate_pdf_content self pdf_text w = (Ok pdf_text, w)
  /\ validate_text_length text max_chars w = (Ok text, w).
Proof.
  intros Hs Hn Hl. split.
  - apply truncate_pdf_content_short; assumption.
  - apply validate_text_length_short; assumption.
Qed.

(** C1, amended.  Both guards return a result within the configured limit:
    [truncate_pdf_content] returns a text whose estimated token count is at
    most [max_input_tokens - 1000], that is at most
    [(max_input_tokens - 1000) * 4 + 3] characters; [validate_text_length]
    returns, for a text that is not blank, at most [max_chars] characters.
    The limits are those of a configuration: a token limit of at least
    1000 and a character limit that is not negative, both small enough to
    be floats. *)
Theorem truncation_within_limit
    (self : ClaudeProcessor) (pdf_text text : str) (max_chars : Z) (w : World) :
  1000 <= max_input_tokens self < 2 ^ 50 ->
  ~ blank text -> 0 <= max_chars < 2 ^ 53 ->
  (exists r w', truncate_pdf_content self pdf_text w = (Ok r, w')
     /\ estimate_tokens r <= max_input_tokens self - 1000
     /\ len r <= (max_input_tokens self - 1000) * 4 + 3)
  /\ (exists r w', validate_text_length text max_chars w = (Ok r, w')
        /\ len r <= max_chars).
Proof.
  intros Hm Hn Hc. split.
  - destruct (truncate_pdf_content_run self pdf_text w) as (r & w' & E & _ & C).
    { change (2 ^ 50) with 1125899906842624 in Hm.
      change (2 ^ 53) with 9007199254740992. lia. }
    exists r, w'. split; [exact E|].
    assert (L : len r <= (max_input_tokens self - 1000) * 4
                \/ estimate_tokens r <= max_input_tokens self - 1000).
    { destruct C as [(Hs & -> & _)|(_ & [->| ->])].
      - right; assumption.
      - left. rewrite slice_to_len by lia. lia.
      - left.
        match goal with |- len (slice_to ?t ?k) <= _ =>
          pose proof (is_prefix_len _ _ (slice_to_prefix t k)) as P end.
        rewrite (slice_to_len pdf_text) in P by lia. lia. }
    unfold estimate_tokens in *.
    destruct L as [L|L]; split; try assumption.
    + apply Z.div_le_upper_bound; lia.
    + lia.
    + pose proof (Z.div_mod (len r) 4 ltac:(lia)).
      pose proof (Z.mod_pos_bound (len r) 4 ltac:(lia)). lia.
  - destruct (validate_text_length_run text max_chars w Hn) as (r & w' & E & _ & C);
      [lia|].
    exists r, w'. split; [exact E|].
    destruct C as [(Hs & -> & _)|(_ & t & _ & ->)]; [assumption|].
    cbv zeta. destruct (PyFloat.int_gt _ t).
    + match goal with |- len (slice_to ?t ?k) <= _ =>
        pose proof (is_prefix_len _ _ (slice_to_prefix t k)) as P end.
      rewrite (slice_to_len text) in P by lia. lia.
    + rewrite slice_to_len by lia. lia.
Qed.

(** C10.  Both guards return an initial segment of their input
    ([validate_text_length] for a text that is not blank): nothing is
    rewritten, reordered or inserted.  The limits may be any integers small
    enough to be floats. *)
Theorem truncation_returns_prefix
    (self : ClaudeProcessor) (pdf_text text : str) (max_chars : Z) (w : World) :
  Z.abs (max_input_tokens self) < 2 ^ 50 ->
  ~ blank text -> Z.abs max_chars < 2 ^ 53 ->
  (exists r w', truncate_pdf_content self pdf_text w = (Ok r, w')
     /\ is_prefix r pdf_text)
  /\ (exists r w', validate_text_length text max_chars w = (Ok r, w')
        /\ is_prefix r text).
Proof.
  intros Hm Hn Hc. split.
  - destruct (truncate_pdf_content_run self pdf_text w) as (r & w' & E & _ & C).
    { change (2 ^ 50) with 1125899906842624 in Hm.
      change (2 ^ 53) with 9007199254740992. lia. }
    exists r, w'. split; [exact E|].
    destruct C as [(_ & -> & _)|(_ & [->| ->])].
    + apply is_prefix_refl.
    + apply slice_to_prefix.
    + eapply is_prefix_trans; apply slice_to_prefix.
  - destruct (validate_text_length_run text max_chars w Hn Hc)
      as (r & w' & E & _ & C).
    exists r, w'. split; [exact E|].
    destruct C as [(_ & -> & _)|(_ & t & _ & ->)]; [apply is_prefix_refl|].
    cbv zeta. destruct (PyFloat.int_gt _ t).
    + eapply is_prefix_trans; apply slice_to_prefix.
    + apply slice_to_prefix.
Qed.

(** C3.  With the default limit of 5000 characters, a text of exactly 5000
    characters that is not blank is returned unchanged; a longer one is cut
    to at most 5000 characters: just after the last full stop of its first
    5000 characters when that full stop lies beyond index 4000, and at 5000
    characters otherwise. *)
Theorem synthesis_limit_boundary (text : str) (w : World) :
  ~ blank text ->
  (len text = 5000 -> validate_text_length text default_max_chars w = (Ok text, w))
  /\ (5001 <= len text ->
      exists r w',
        validate_text_length text default_max_chars w = (Ok r, w')
        /\ r <> text
        /\ len r <= 5000
        /\ (forall i, last_period_at (slice_to text 5000) i -> 4000 < i ->
                      r = slice_to text (i + 1))
        /\ ((forall i, last_period_at (slice_to text 5000) i -> i <= 4000) ->
            r = slice_to text 5000)).
Proof.
  intro Hn. unfold default_max_chars. split.
  - intro H. apply validate_text_length_short; [assumption|lia].
  - intro H.
    destruct (validate_text_length_run text 5000 w Hn ltac:(reflexivity))
      as (r & w' & E & _ & C).
    exists r, w'. split; [exact E|].
    destruct C as [(Hs & _)|(_ & t & Ht & Hr)]; [lia|].
    rewrite threshold_5000 in Ht. injection Ht as <-.
    cbv zeta in Hr. rewrite int_gt_4000 in Hr.
    pose proof (rfind_range (slice_to text 5000) period) as R.
    change (len period) with 1 in R.
    pose proof (slice_to_len text 5000 ltac:(lia)) as L.
    assert (Hlen : len r <= 5000).
    { subst r. destruct (4000 <? _) eqn:G.
      - rewrite slice_to_len by lia. lia.
      - lia. }
    split; [|split; [exact Hlen|split]].
    + intro Heq. rewrite Heq in Hlen. lia.
    + intros i Hi Hgt. apply rfind_period_last in Hi. destruct Hi as [_ Hi].
      rewrite Hi in Hr. apply Z.ltb_lt in Hgt. rewrite Hgt in Hr.
      subst r. apply slice_to_slice_to. lia.
    + intro Hall. destruct (4000 <? _) eqn:G; [|exact Hr].
      apply Z.ltb_lt in G. exfalso.
      specialize (Hall (rfind (slice_to text 5000) period)).
      assert (last_period_at (slice_to text 5000)
                (rfind (slice_to text 5000) period))
        by (apply rfind_period_last; split; [lia|reflexivity]).
      specialize (Hall H0). lia.
Qed.

(** C2.  On a blank text [generate_summary] and [generate_audio] both raise
    the [ValueError] for empty input and leave the world as it was: nothing
    is logged and no service is called. *)
Theorem blank_input_rejected_before_any_call
    (svc : Services) (claude : ClaudeProcessor) (eleven : ElevenLabsProcessor)
    (text : str) (target_minutes : Z) (w : World) :
  blank text ->
  generate_summary svc claude text target_minutes w
  = (Raise (ValueError (lit "PDF content cannot be empty")), w)
  /\ generate_audio svc eleven text w
     = (Raise (ValueError (lit "Text cannot be empty")), w).
Proof.
  intro H. split.
  - unfold generate_summary.
    apply strip_truthy_blank in H. rewrite H. reflexivity.
  - unfold generate_audio, bind.
    rewrite (validate_text_length_blank text default_max_chars w H). reflexivity.
Qed.

(** *** Instances *)

Lemma truncation_unchanged_on_short_witness :
  truncate_pdf_content default_claude (lit "A short paper.") empty_world
  = (Ok (lit "A short paper."), empty_world)
  /\ validate_text_length (lit "Hello. World") 5000 empty_world
     = (Ok (lit "Hello. World"), empty_world).
Proof.
  apply (truncation_unchanged_on_short default_claude (lit "A short paper.")
           (lit "Hello. World") 5000 empty_world).
  - vm_compute. discriminate.
  - apply strip_truthy_not_blank. reflexivity.
  - vm_compute. discriminate.
Defined.

Lemma truncation_within_limit_witness :
  (exists r w',
      truncate_pdf_content default_claude (lit "A short paper.") empty_world
      = (Ok r, w')
     /\ estimate_tokens r <= max_input_tokens default_claude - 1000
     /\ len r <= (max_input_tokens default_claude - 1000) * 4 + 3)
  /\ (exists r w',
        validate_text_length (lit "Hello. World") 5 empty_world = (Ok r, w')
        /\ len r <= 5).
Proof.
  apply (truncation_within_limit default_claude (lit "A short paper.")
           (lit "Hello. World") 5 empty_world).
  - vm_compute. split; [discriminate|reflexivity].
  - apply strip_truthy_not_blank. reflexivity.
  - vm_compute. split; [discriminate|reflexivity].
Defined.

Lemma truncation_returns_prefix_witness :
  (exists r w',
      truncate_pdf_content default_claude (lit "A short paper.") empty_world
      = (Ok r, w')
     /\ is_prefix r (lit "A short paper."))
  /\ (exists r w',
        validate_text_length (lit "Hello. World") 8 empty_world = (Ok r, w')
        /\ is_prefix r (lit "Hello. World")).
Proof.
  apply (truncation_returns_prefix default_claude (lit "A short paper.")
           (lit "Hello. World") 8 empty_world).
  - vm_compute. reflexivity.
  - apply strip_truthy_not_blank. reflexivity.
  - vm_compute. reflexivity.
Defined.

Example validate_cut_at_period :
  fst (validate_text_length (lit "Hello world. Bye") 13 empty_world)
  = Ok (lit "Hello world.")
  /\ fst (validate_text_length (lit "Hello world. Bye") 14 empty_world)
     = Ok (lit "Hello world. B").
Proof. split; vm_compute; reflexivity. Qed.

Example validate_cut_default_limit :
  fst (validate_text_length
         (repeat 97%N 4500 ++ lit "." ++ repeat 98%N 600) 5000 empty_world)
  = Ok (repeat 97%N 4500 ++ lit ".")
  /\ fst (validate_text_length
            (repeat 97%N 4000 ++ lit "." ++ repeat 98%N 1100) 5000 empty_world)
     = Ok (repeat 97%N 4000 ++ lit "." ++ repeat 98%N 999).
Proof. split; vm_compute; reflexivity. Qed.

Lemma len_repeat (c : char) (n : nat) : len (repeat c n) = Z.of_nat n.
Proof. unfold len. rewrite repeat_length. reflexivity. Qed.

(** C1 as stated fails on the character count: a text of 396003
    characters has an estimated 99000 tokens, so it is returned whole, and
    it is longer than (100000 - 1000) * 4 = 396000 characters. *)
Lemma truncation_exceeds_char_budget :
  truncate_pdf_content default_claude long_text empty_world
  = (Ok long_text, empty_world)
  /\ (max_input_tokens default_claude - 1000) * 4 < len long_text.
Proof.
  assert (L : len long_text = 396003).
  { unfold long_text. rewrite len_repeat. apply Z2Nat.id. discriminate. }
  split.
  - apply truncate_pdf_content_short. unfold estimate_tokens. rewrite L.
    vm_compute. discriminate.
  - rewrite L. reflexivity.
Qed.

Lemma synthesis_limit_boundary_witness :
  (len sample_summary = 5000 ->
   validate_text_length sample_summary default_max_chars empty_world
   = (Ok sample_summary, empty_world))
  /\ (5001 <= len sample_summary ->
      exists r w',
        validate_text_length sample_summary default_max_chars empty_world
        = (Ok r, w')
        /\ r <> sample_summary
        /\ len r <= 5000
        /\ (forall i, last_period_at (slice_to sample_summary 5000) i -> 4000 < i ->
                      r = slice_to sample_summary (i + 1))
        /\ ((forall i,
               last_period_at (slice_to sample_summary 5000) i -> i <= 4000) ->
            r = slice_to sample_summary 5000)).
Proof.
  apply (synthesis_limit_boundary sample_summary empty_world).
  apply strip_truthy_not_blank. vm_compute. reflexivity.
Defined.

Lemma blank_input_rejected_witness :
  generate_summary silent_services default_claude [32%N; 10%N] 3 empty_world
  = (Raise (ValueError (lit "PDF content cannot be empty")), empty_world)
  /\ generate_audio
       silent_services default_eleven [32%N; 10%N] empty_world
     = (Raise (ValueError (lit "Text cannot be empty")), empty_world).
Proof.
  apply (blank_input_rejected_before_any_call silent_services default_claude
           default_eleven [32%N; 10%N] 3 empty_world).
  repeat constructor.
Defined.

End Truncation.

(** ** Extraction and its fallback *)

Section Extraction.

Import App.

Lemma pages_text_in_order (pages : list (option str)) (acc : str) :
  pages_text (List.map Ok pages) acc = Ok (acc ++ join_pages pages).
Proof.
  revert acc. induction pages as [|p ps IH]; intro acc.
  - simpl. rewrite app_nil_r. reflexivity.
  - cbn [List.map pages_text]. rewrite IH. f_equal.
    unfold join_pages, page_texts. cbn [flat_map].
    destruct p as [t|]; [destruct (truthy t)|]; cbn [app List.map List.concat];
      rewrite <- ?app_assoc; reflexivity.
Qed.

Lemma extract_pdf_text_run (svc : Services) (f : UploadedFile) (w : World) :
  let primary := pdfplumber_open svc (getvalue f) (cursor w) in
  let secondary := pypdf2_reader svc (getvalue f) 0 in
  exists w',
    extract_pdf_text svc (Some f) w
    = (Ok (match extracted (fst primary) with
           | Some t => Some t
           | None => extracted (fst secondary)
           end), w')
    /\ calls w'
       = calls w
           ++ PdfplumberOpen (getvalue f) (cursor w)
           :: match extracted (fst primary) with
              | Some _ => []
              | None =>
                  PyPDF2Reader (getvalue f) 0
                  :: match extracted (fst secondary) with
                     | Some _ => []
                     | None => [StError extraction_failed]
                     end
              end
    /\ cursor w'
       = match extracted (fst primary) with
         | Some _ => snd primary
         | None => snd secondary
         end.
Proof.
  cbv zeta.
  unfold extract_pdf_text, open_with_pdfplumber, read_with_pypdf2, extracted.
  unfold try_except, bind, get_cursor, set_cursor, record_call, lift, log, ret.
  cbn [logged calls cursor].
  destruct (pdfplumber_open svc (getvalue f) (cursor w)) as [r1 pos1].
  destruct (pypdf2_reader svc (getvalue f) 0) as [r2 pos2].
  cbn [fst snd].
  destruct r1 as [pages1|e1]; cbn [logged calls cursor];
    [destruct (pages_text pages1 []) as [t1|e1]; cbn [logged calls cursor];
     [destruct (truthy (strip t1)) eqn:T1; cbn [logged calls cursor]|]|].
  all: try (eexists; split; [reflexivity|]; cbn [logged calls cursor];
            split; reflexivity).
  all: destruct r2 as [pages2|e2]; cbn [logged calls cursor];
    [destruct (pages_text pages2 []) as [t2|e2]; cbn [logged calls cursor];
     [destruct (truthy (strip t2)) eqn:T2; cbn [logged calls cursor]|]|].
  all: eexists; split; [reflexivity|]; cbn [logged calls cursor].
  all: split; [rewrite <- ?app_assoc; reflexivity|reflexivity].
Qed.

Lemma pages_text_raises (pages : list page) (e : exn) (acc : str) :
  In (Raise e) pages -> exists e', pages_text pages acc = Raise e'.
Proof.
  revert acc. induction pages as [|[p|e0] rest IH]; intros acc H.
  - destruct H.
  - destruct H as [H|H]; [discriminate H|].
    cbn [pages_text]. apply IH. exact H.
  - eexists. reflexivity.
Qed.

Lemma yields_nothing_extracted (r : result (list page)) :
  yields_nothing r -> extracted r = None.
Proof.
  destruct r as [pages|e]; [|reflexivity].
  intros [[e H]|(ps & -> & Hb)]; unfold extracted.
  - destruct (pages_text_raises pages e [] H) as [e' ->]. reflexivity.
  - rewrite pages_text_in_order. cbn [app].
    apply strip_truthy_blank in Hb. rewrite Hb. reflexivity.
Qed.

Lemma text_extracted (ps : list (option str)) :
  ~ blank (join_pages ps) ->
  extracted (Ok (List.map Ok ps)) = Some (strip (join_pages ps)).
Proof.
  intro Hb. unfold extracted. rewrite pages_text_in_order. cbn [app].
  apply strip_truthy_not_blank in Hb. rewrite Hb. reflexivity.
Qed.

(** C4.  When the primary method raises, on opening the document or on
    reading one of its pages, or when the pages it reads hold only white
    space, [extract_pdf_text] returns, and the calls it makes are: the
    primary parser on the file, then the secondary parser once, on the same
    bytes with the read cursor at 0, then the error message when nothing is
    returned.  When the secondary parser reads every page and their texts,
    joined in the order of the pages, are not blank, that text, stripped, is
    the result; when the secondary parser yields no text either, the result
    is [None]. *)
Theorem fallback_invoked_once (svc : Services) (f : UploadedFile) (w : World) :
  primary_yields_nothing svc f w ->
  exists res w',
    extract_pdf_text svc (Some f) w = (Ok res, w')
    /\ calls w'
       = calls w
           ++ [PdfplumberOpen (getvalue f) (cursor w);
               PyPDF2Reader (getvalue f) 0]
           ++ match res with
              | Some _ => []
              | None => [StError extraction_failed]
              end
    /\ (forall ps,
          fst (pypdf2_reader svc (getvalue f) 0) = Ok (List.map Ok ps) ->
          ~ blank (join_pages ps) ->
          res = Some (strip (join_pages ps)))
    /\ (yields_nothing (fst (pypdf2_reader svc (getvalue f) 0)) ->
        res = None).
Proof.
  unfold primary_yields_nothing. intro H.
  apply yields_nothing_extracted in H.
  destruct (extract_pdf_text_run svc f w) as (w' & E & C & _).
  cbv zeta in E, C. rewrite H in E, C.
  exists (extracted (fst (pypdf2_reader svc (getvalue f) 0))), w'.
  split; [exact E|]. split; [exact C|]. split.
  - intros ps Hp Hb. rewrite Hp. apply text_extracted. exact Hb.
  - apply yields_nothing_extracted.
Qed.

Example fallback_on_scanned_file :
  extract_pdf_text scanned_services (Some scanned_file) empty_world
  = (Ok (Some (lit "Page one." ++ [10%N; 10%N] ++ lit "Page two.")),
     {| logged := [(INFO, ExtractedWithPyPDF2 23)];
        calls := [PdfplumberOpen (getvalue scanned_file) 0;
                  PyPDF2Reader (getvalue scanned_file) 0];
        cursor := 7 |}).
Proof. vm_compute. reflexivity. Qed.

Lemma fallback_invoked_once_witness :
  exists res w',
    extract_pdf_text scanned_services (Some scanned_file) empty_world = (Ok res, w')
    /\ calls w'
       = calls empty_world
           ++ [PdfplumberOpen (getvalue scanned_file) (cursor empty_world);
               PyPDF2Reader (getvalue scanned_file) 0]
           ++ match res with
              | Some _ => []
              | None => [StError extraction_failed]
              end
    /\ (forall ps,
          fst (pypdf2_reader scanned_services (getvalue scanned_file) 0)
          = Ok (List.map Ok ps) ->
          ~ blank (join_pages ps) ->
          res = Some (strip (join_pages ps)))
    /\ (yields_nothing
          (fst (pypdf2_reader scanned_services (getvalue scanned_file) 0)) ->
        res = None).
Proof.
  apply (fallback_invoked_once scanned_services scanned_file empty_world).
  unfold primary_yields_nothing. cbn [scanned_services pdfplumber_open fst].
  right. exists [Some (lit "  "); None]. split; [reflexivity|].
  apply strip_truthy_blank. reflexivity.
Defined.

End Extraction.

(** ** The summarizer *)

Section Summarizer.

Import ClaudeClient.

Lemma prompt_embeds_450 (pdf_text : str) :
  contains (lit "(approximately 450 words)") (create_summary_prompt pdf_text 3)
  /\ contains (lit "Exactly 450 words") (create_summary_prompt pdf_text 3).
Proof.
  unfold create_summary_prompt. cbv zeta. split.
  - do 2 apply contains_app_r. apply contains_span. vm_compute. reflexivity.
  - do 8 apply contains_app_r. apply contains_span. vm_compute. reflexivity.
Qed.

Lemma threshold_low_450 :
  PyFloat.int_mul 450 PyFloat.f0_7 = Ok (S754_finite false 5541538603991040 (-44)).
Proof. vm_compute. reflexivity. Qed.

Lemma threshold_high_450 :
  PyFloat.int_mul 450 PyFloat.f1_3 = Ok (S754_finite false 5145714417991680 (-43)).
Proof. vm_compute. reflexivity. Qed.

Lemma int_lt_315 (k : Z) :
  PyFloat.int_lt k (S754_finite false 5541538603991040 (-44)) = (k <? 315).
Proof.
  unfold PyFloat.int_lt, PyFloat.cmp_int.
  change (0 <=? -44) with false. cbv iota.
  change (2 ^ (- -44)) with 17592186044416.
  destruct (Z.compare_spec (k * 17592186044416) 5541538603991040);
    symmetry; [apply Z.ltb_ge | apply Z.ltb_lt | apply Z.ltb_ge]; lia.
Qed.

Lemma int_gt_585 (k : Z) :
  PyFloat.int_gt k (S754_finite false 5145714417991680 (-43)) = (585 <? k).
Proof.
  unfold PyFloat.int_gt, PyFloat.cmp_int.
  change (0 <=? -43) with false. cbv iota.
  change (2 ^ (- -43)) with 8796093022208.
  destruct (Z.compare_spec (k * 8796093022208) 5145714417991680);
    symmetry; [apply Z.ltb_ge | apply Z.ltb_ge | apply Z.ltb_lt]; lia.
Qed.

Lemma length_check_warns (n : Z) :
  (exists m, In (WARNING, m) (length_check_records n)) <-> (n < 315 \/ 585 < n).
Proof.
  unfold length_check_records.
  destruct (n <? 315) eqn:L; [|destruct (585 <? n) eqn:G].
  - apply Z.ltb_lt in L. split; [intros _; left; exact L|].
    intros _. exists SummaryShorter. right. left. reflexivity.
  - apply Z.ltb_lt in G. split; [intros _; right; exact G|].
    intros _. exists SummaryLonger. right. left. reflexivity.
  - apply Z.ltb_ge in L. apply Z.ltb_ge in G. split; [|lia].
    intros [m [H|[]]]. discriminate.
Qed.

(** C5.  For a target of 3 minutes and a text that is not blank, the prompt
    sent to the service asks for 450 words; once the service has answered,
    [generate_summary] returns the stripped answer, and after the record of
    the word count it logs one warning when the count is below 315, one when
    it is above 585, and nothing otherwise. *)
Theorem summary_targets_450_words
    (svc : Services) (self : ClaudeProcessor) (pdf_text : str) (w : World) :
  ~ blank pdf_text ->
  Z.abs (max_input_tokens self) < 2 ^ 50 ->
  exists processed w1,
    truncate_pdf_content self pdf_text w = (Ok processed, w1)
    /\ contains (lit "(approximately 450 words)")
         (create_summary_prompt processed 3)
    /\ contains (lit "Exactly 450 words") (create_summary_prompt processed 3)
    /\ forall response block rest,
         messages_create svc (model self) (target_output_tokens self)
           PyFloat.f0_1 (create_summary_prompt processed 3) = Ok response ->
         content response = block :: rest ->
         exists w',
           generate_summary svc self pdf_text 3 w = (Ok (strip (text block)), w')
           /\ calls w'
              = calls w
                  ++ [MessagesCreate (model self) (target_output_tokens self)
                        PyFloat.f0_1 (create_summary_prompt processed 3)]
           /\ logged w'
              = logged w1
                  ++ (INFO, GeneratingSummary (len processed))
                  :: length_check_records
                       (Z.of_nat (List.length (split (strip (text block))))).
Proof.
  intros Hn Hb.
  destruct (truncate_pdf_content_run self pdf_text w) as (p & w1 & E & Hc & _).
  { change (2 ^ 50) with 1125899906842624 in Hb.
    change (2 ^ 53) with 9007199254740992. lia. }
  exists p, w1. split; [exact E|].
  destruct (prompt_embeds_450 p) as [C1 C2].
  split; [exact C1|]. split; [exact C2|].
  intros response block rest Hr Hcont.
  unfold generate_summary.
  apply strip_truthy_not_blank in Hn. rewrite Hn. cbn [negb].
  unfold bind at 1. rewrite E.
  unfold _make_sync_api_call, first_block, try_except, bind, record_call,
    lift, log, ret.
  cbn [logged calls cursor]. rewrite Hr, Hcont.
  change (3 * 150) with 450.
  rewrite threshold_low_450, int_lt_315.
  unfold length_check_records.
  set (n := Z.of_nat (List.length (split (strip (text block))))).
  destruct (n <? 315) eqn:L.
  - eexists. split; [reflexivity|]. cbn [logged calls cursor].
    rewrite Hc. split; [reflexivity|].
    rewrite <- !app_assoc. reflexivity.
  - rewrite threshold_high_450, int_gt_585.
    destruct (585 <? n) eqn:G.
    + eexists. split; [reflexivity|]. cbn [logged calls cursor].
      rewrite Hc. split; [reflexivity|].
      rewrite <- !app_assoc. reflexivity.
    + eexists. split; [reflexivity|]. cbn [logged calls cursor].
      rewrite Hc. split; [reflexivity|].
      rewrite <- !app_assoc. reflexivity.
Qed.

Example generate_summary_short_warning :
  generate_summary working_services default_claude
    (lit "A paper about rounding.") 3 empty_world
  = (Ok (lit "A short summary of the paper."),
     {| logged := [(INFO, GeneratingSummary 23); (INFO, GeneratedSummary 6 450);
                   (WARNING, SummaryShorter)];
        calls := [MessagesCreate default_model 2000 PyFloat.f0_1
                    (create_summary_prompt (lit "A paper about rounding.") 3)];
        cursor := 0 |}).
Proof. vm_compute. reflexivity. Qed.

Lemma summary_targets_450_words_witness :
  exists processed w1,
    truncate_pdf_content default_claude (lit "A paper about rounding.") empty_world
    = (Ok processed, w1)
    /\ contains (lit "(approximately 450 words)")
         (create_summary_prompt processed 3)
    /\ contains (lit "Exactly 450 words") (create_summary_prompt processed 3)
    /\ forall response block rest,
         messages_create working_services (model default_claude)
           (target_output_tokens default_claude)
           PyFloat.f0_1 (create_summary_prompt processed 3) = Ok response ->
         content response = block :: rest ->
         exists w',
           generate_summary working_services default_claude
             (lit "A paper about rounding.") 3 empty_world
           = (Ok (strip (text block)), w')
           /\ calls w'
              = calls empty_world
                  ++ [MessagesCreate (model default_claude)
                        (target_output_tokens default_claude)
                        PyFloat.f0_1 (create_summary_prompt processed 3)]
           /\ logged w'
              = logged w1
                  ++ (INFO, GeneratingSummary (len processed))
                  :: length_check_records
                       (Z.of_nat (List.length (split (strip (text block))))).
Proof.
  apply (summary_targets_450_words working_services default_claude
           (lit "A paper about rounding.") empty_world).
  - apply strip_truthy_not_blank. reflexivity.
  - vm_compute. reflexivity.
Defined.

End Summarizer.

(** ** The synthesizer *)

Section Synthesizer.

Import ElevenLabs.

Lemma phrase_not_blank : ~ blank test_phrase.
Proof. apply strip_truthy_not_blank. reflexivity. Qed.

Lemma phrase_duration :
  exists d, PyFloat.true_div (word_count test_phrase) 150 = Ok d.
Proof. vm_compute. eexists. reflexivity. Qed.

(** C7.  [test_connection] always returns a boolean, after asking the
    service once to speak the fixed phrase; it returns [True] exactly when
    [generate_audio] on that phrase returns a byte string of non-zero
    length.  Whatever the synthesis raises becomes [False]. *)
Theorem connection_test_reports
    (svc : Services) (self : ElevenLabsProcessor) (w : World) :
  exists b w',
    test_connection svc self w = (Ok b, w')
    /\ calls w'
       = calls w ++ [TextToSpeechConvert (voice_id self) (output_format self)
                       test_phrase (model_id self)]
    /\ (b = true <->
        exists audio w'',
          generate_audio svc self test_phrase w = (Ok audio, w'')
          /\ 0 < Z.of_nat (List.length audio)).
Proof.
  destruct phrase_duration as [d Hd].
  unfold test_connection, generate_audio, try_except, bind. cbv beta.
  rewrite (validate_text_length_short test_phrase default_max_chars w
             phrase_not_blank ltac:(vm_compute; discriminate)).
  unfold estimate_audio_duration, _generate_sync.
  unfold try_except, bind, record_call, lift, log, ret, join_chunks.
  rewrite Hd. cbn [logged calls cursor].
  destruct (text_to_speech_convert svc (voice_id self) (output_format self)
              test_phrase (model_id self)) as [[b|chunks [e|]]|e];
    cbn [logged calls cursor].
  all: eexists _, _; split; [reflexivity|]; cbn [logged calls cursor].
  all: split; [reflexivity|].
  all: split.
  all: try (intro H; discriminate H).
  all: try (intros (audio & w'' & H & _); discriminate H).
  - intro H. apply Z.ltb_lt in H. eexists _, _. split; [reflexivity|exact H].
  - intros (audio & w'' & H & Hp). injection H as <- _. apply Z.ltb_lt. exact Hp.
  - intro H. apply Z.ltb_lt in H. eexists _, _. split; [reflexivity|exact H].
  - intros (audio & w'' & H & Hp). injection H as <- _. apply Z.ltb_lt. exact Hp.
Qed.

Example connection_test_working :
  fst (test_connection working_services default_eleven empty_world) = Ok true
  /\ fst (test_connection silent_services default_eleven empty_world) = Ok false
  /\ fst (test_connection
            {| messages_create := messages_create silent_services;
               text_to_speech_convert :=
                 fun _ _ _ _ => Raise (LibraryError (lit "ApiError") (lit "401"));
               pdfplumber_open := pdfplumber_open silent_services;
               pypdf2_reader := pypdf2_reader silent_services |}
            default_eleven empty_world) = Ok false.
Proof. repeat split; vm_compute; reflexivity. Qed.

(** C9.  For a positive number of words per minute, a text with at most as
    many words as another gets an estimated duration that is at most the
    other's.  Both durations are returned: a word count below [2^1000]
    cannot overflow the division. *)
Theorem duration_monotone_in_word_count
    (text1 text2 : str) (words_per_minute : Z) (w1 w2 : World) :
  0 < words_per_minute ->
  word_count text1 <= word_count text2 ->
  word_count text2 < 2 ^ 1000 ->
  exists d1 d2 w1' w2',
    estimate_audio_duration text1 words_per_minute w1 = (Ok d1, w1')
    /\ estimate_audio_duration text2 words_per_minute w2 = (Ok d2, w2')
    /\ PyFloat.leb d1 d2 = true.
Proof.
  intros Hp Hle Hlt.
  assert (H0 : 0 <= word_count text1) by (unfold word_count; lia).
  destruct (true_div_mono (word_count text1) (word_count text2)
              words_per_minute H0 Hle Hlt Hp) as (f1 & f2 & E1 & E2 & L).
  unfold estimate_audio_duration, bind, lift, log, ret.
  rewrite E1, E2. eexists _, _, _, _. repeat split; try reflexivity. exact L.
Qed.

Lemma duration_monotone_witness :
  exists d1 d2 w1' w2',
    estimate_audio_duration (lit "one two three") 150 empty_world = (Ok d1, w1')
    /\ estimate_audio_duration (lit "one two three four  five") 150 empty_world
       = (Ok d2, w2')
    /\ PyFloat.leb d1 d2 = true.
Proof.
  apply (duration_monotone_in_word_count (lit "one two three")
           (lit "one two three four  five") 150 empty_world empty_world).
  - reflexivity.
  - vm_compute. discriminate.
  - vm_compute. reflexivity.
Defined.

Example duration_of_450_words :
  fst (estimate_audio_duration
         (List.concat (repeat (lit "word ") 450)) 150 empty_world)
  = Ok (S754_finite false 6755399441055744 (-51)).
Proof. vm_compute. reflexivity. Qed.

End Synthesizer.

(** ** The name of the audio file *)

Section Artifact.

Import App.

Lemma replace_fuel_plain (stem : str) (fuel : nat) :
  ~ In 46%N stem -> (List.length stem < fuel)%nat ->
  replace_fuel fuel (lit ".pdf") [] (stem ++ lit ".pdf") = stem.
Proof.
  revert fuel. induction stem as [|c r IH]; intros fuel Hn Hf.
  - destruct fuel as [|fuel]; [simpl in Hf; lia|].
    cbn. destruct fuel; reflexivity.
  - destruct fuel as [|fuel]; [simpl in Hf; lia|].
    assert (Hc : c <> 46%N) by (intro E; apply Hn; left; auto).
    change ((c :: r) ++ lit ".pdf") with (c :: (r ++ lit ".pdf")).
    cbn [replace_fuel].
    replace (startswith (lit ".pdf") (c :: r ++ lit ".pdf")) with false.
    + rewrite IH; [reflexivity| |simpl in Hf; lia].
      intro Hin. apply Hn. right. exact Hin.
    + symmetry. change (lit ".pdf") with [46%N; 112%N; 100%N; 102%N].
      cbn [startswith]. apply andb_false_intro1. apply N.eqb_neq. congruence.
Qed.

(** X17.  For an upload named [stem.pdf] whose stem has no full stop, the
    name offered is [stem_summary.mp3]. *)
Lemma summary_filename_plain (stem : str) :
  ~ In 46%N stem ->
  summary_filename (stem ++ lit ".pdf") = stem ++ lit "_summary.mp3".
Proof.
  intro Hn. unfold summary_filename, PyStr.replace.
  change (lit ".pdf") with [46%N; 112%N; 100%N; 102%N] at 1.
  cbv iota. f_equal.
  change [46%N; 112%N; 100%N; 102%N] with (lit ".pdf").
  apply replace_fuel_plain; [exact Hn|].
  rewrite length_app. simpl. lia.
Qed.

(** C8, on the names where the code departs from it.  [replace] removes
    every [.pdf] of the name, not only the extension, and leaves an
    upper-case extension in place; the name offered for download by the
    pipeline is the one so computed. *)
Theorem summary_filename_drops_inner_pdf :
  summary_filename (lit "notes.pdf.backup.pdf") = lit "notes.backup_summary.mp3"
  /\ summary_filename (lit "REPORT.PDF") = lit "REPORT.PDF_summary.mp3"
  /\ In (StDownloadButton ([11015%N; 65039%N] ++ lit " Download MP3")
           [Byte.x49; Byte.x44; Byte.x33]
           (lit "notes.backup_summary.mp3") (lit "audio/mp3"))
        (calls (snd (process_pdf_to_audio working_services default_claude
                       default_eleven backup_file 3 empty_world))).
Proof.
  split; [vm_compute; reflexivity|]. split; [vm_compute; reflexivity|].
  vm_compute. repeat (first [left; reflexivity | right]).
Qed.

End Artifact.

(* ================================================================== *)
(** * Further properties of the code *)

(** ** Extraction *)

Section MoreExtraction.

Import App.

Lemma lstrip_app (a b : str) :
  lstrip (a ++ b)
  = match lstrip a with [] => lstrip b | _ :: _ => lstrip a ++ b end.
Proof.
  induction a as [|c r IH]; simpl.
  - reflexivity.
  - destruct (isspace c); [exact IH|reflexivity].
Qed.

Lemma lstrip_idem (s : str) : lstrip (lstrip s) = lstrip s.
Proof.
  induction s as [|c r IH]; simpl; [reflexivity|].
  destruct (isspace c) eqn:E; [exact IH|]. simpl. rewrite E. reflexivity.
Qed.

Lemma rstrip_idem (s : str) : rstrip (rstrip s) = rstrip s.
Proof.
  unfold rstrip. rewrite rev_involutive, lstrip_idem. reflexivity.
Qed.

Lemma rstrip_cons (c : char) (r : str) :
  isspace c = false -> rstrip (c :: r) = c :: rstrip r.
Proof.
  intro Hc. unfold rstrip. simpl rev. rewrite lstrip_app.
  destruct (lstrip (rev r)) as [|a t] eqn:E.
  - simpl. rewrite Hc. reflexivity.
  - rewrite rev_app_distr. reflexivity.
Qed.

(** What [strip] returns: nothing, or a text that begins and ends with a
    character that is not white space. *)
Lemma strip_shape (s : str) :
  strip s = [] \/ exists c r, strip s = c :: rstrip r /\ isspace c = false
                              /\ lstrip s = c :: r.
Proof.
  unfold strip. destruct (lstrip s) as [|c r] eqn:E.
  - left. reflexivity.
  - right. pose proof (lstrip_head s c r E) as Hc.
    exists c, r. rewrite rstrip_cons by assumption. auto.
Qed.

Lemma strip_idem (s : str) : strip (strip s) = strip s.
Proof.
  destruct (strip_shape s) as [->|(c & r & -> & Hc & _)]; [reflexivity|].
  unfold strip at 1. simpl lstrip. rewrite Hc.
  rewrite rstrip_cons by assumption. rewrite rstrip_idem. reflexivity.
Qed.

Lemma rstrip_last (s : str) (t : str) (c : char) :
  rstrip s = t ++ [c] -> isspace c = false.
Proof.
  unfold rstrip. intro H.
  apply (f_equal (@rev char)) in H. rewrite rev_involutive, rev_app_distr in H.
  simpl in H. eapply lstrip_head; eassumption.
Qed.

Lemma read_pages_some (pages : list page) (ps : list (option str)) :
  read_pages pages = Some ps -> pages = List.map Ok ps.
Proof.
  revert ps. induction pages as [|[p|e] rest IH]; intros ps H; cbn [read_pages] in H.
  - injection H as <-. reflexivity.
  - destruct (read_pages rest) as [qs|]; [|discriminate H].
    injection H as <-. cbn [List.map]. f_equal. apply IH. reflexivity.
  - discriminate H.
Qed.

Lemma read_pages_none (pages : list page) :
  read_pages pages = None -> exists e, In (Raise e) pages.
Proof.
  induction pages as [|[p|e] rest IH]; intro H; cbn [read_pages] in H.
  - discriminate H.
  - destruct (read_pages rest) as [qs|]; [discriminate H|].
    destruct (IH eq_refl) as [e He]. exists e. right. exact He.
  - exists e. left. reflexivity.
Qed.

(** The text found in the pages is the text that the loop of the code
    collects. *)
Lemma parser_found_extracted (r : result (list page)) :
  parser_found r = extracted r.
Proof.
  destruct r as [pages|e]; [|reflexivity].
  unfold parser_found, extracted.
  destruct (read_pages pages) as [ps|] eqn:R.
  - apply read_pages_some in R. subst pages.
    rewrite pages_text_in_order. reflexivity.
  - apply read_pages_none in R. destruct R as [e He].
    destruct (pages_text_raises pages e [] He) as [e' ->]. reflexivity.
Qed.

(** X1.  [extract_pdf_text] on a file returns the text the first parser
    found in the document, and otherwise the text the second parser found in
    the same bytes read from position 0.  The text a parser found is the
    texts of the pages that have some, in the order of the pages, each
    followed by a blank line, the whole stripped; it found none when it
    raised on the document or on a page, or when that text is blank.  The
    second parser is called only when the first found none, the error
    message is shown only when neither found text, and the cursor is left
    where the last parser called left it. *)
Theorem extraction_takes_first_method_with_text
    (svc : Services) (f : UploadedFile) (w : World) :
  let primary := pdfplumber_open svc (getvalue f) (cursor w) in
  let secondary := pypdf2_reader svc (getvalue f) 0 in
  exists w',
    extract_pdf_text svc (Some f) w
    = (Ok (match parser_found (fst primary) with
           | Some t => Some t
           | None => parser_found (fst secondary)
           end), w')
    /\ calls w'
       = calls w
           ++ PdfplumberOpen (getvalue f) (cursor w)
           :: match parser_found (fst primary) with
              | Some _ => []
              | None =>
                  PyPDF2Reader (getvalue f) 0
                  :: match parser_found (fst secondary) with
                     | Some _ => []
                     | None => [StError extraction_failed]
                     end
              end
    /\ cursor w'
       = match parser_found (fst primary) with
         | Some _ => snd primary
         | None => snd secondary
         end.
Proof.
  cbv zeta. rewrite !parser_found_extracted.
  destruct (extract_pdf_text_run svc f w) as (w' & E & C & P).
  exists w'. repeat split; assumption.
Qed.

(** On a document of four pages, two of them without text, the first
    parser finds the two texts in their order. *)
Example parser_found_on_pages :
  parser_found (fst (pdfplumber_open paged_services (getvalue scanned_file) 0))
  = Some (lit "Page one." ++ [10%N; 10%N] ++ lit "Page two.").
Proof. vm_compute. reflexivity. Qed.

(** A page that raises leaves the parser without text, whatever the pages
    before it hold. *)
Example parser_found_on_broken_page :
  parser_found (Ok [Ok (Some (lit "Page one."));
                    Raise (ValueError (lit "bad page"))]) = None.
Proof. reflexivity. Qed.

Lemma extracted_shape (r : result (list page)) (t : str) :
  extracted r = Some t -> t <> [] /\ strip t = t.
Proof.
  unfold extracted. destruct r as [pages|e]; [|discriminate].
  destruct (pages_text pages []) as [s|e]; [|discriminate].
  destruct (truthy (strip s)) eqn:T; [|discriminate].
  intro H. injection H as <-. split.
  - intro E. rewrite E in T. discriminate.
  - apply strip_idem.
Qed.

(** X2.  [extract_pdf_text] never raises.  What it returns is [None] or a
    text that is not empty and has no white space at either end; without a
    file it returns [None] and does nothing. *)
Theorem extraction_returns_stripped_text_or_nothing
    (svc : Services) (uploaded_file : option UploadedFile) (w : World) :
  exists res w',
    extract_pdf_text svc uploaded_file w = (Ok res, w')
    /\ (forall t, res = Some t ->
          t <> [] /\ strip t = t
          /\ (forall c r, t = c :: r -> isspace c = false)
          /\ (forall r c, t = r ++ [c] -> isspace c = false))
    /\ (uploaded_file = None -> res = None /\ w' = w).
Proof.
  destruct uploaded_file as [f|].
  - destruct (extract_pdf_text_run svc f w) as (w' & E & _).
    eexists _, w'. split; [exact E|]. split; [|discriminate].
    intros t Ht.
    assert (S : t <> [] /\ strip t = t).
    { destruct (extracted (fst (pdfplumber_open svc (getvalue f) (cursor w))))
        as [t1|] eqn:E1.
      - injection Ht as <-. eapply extracted_shape; eassumption.
      - eapply extracted_shape; eassumption. }
    destruct S as [Hne Hs]. repeat split; try assumption.
    + intros c r ->. destruct (strip_shape (c :: r)) as [E0|(c' & r' & E1 & Hc & _)].
      * rewrite Hs in E0. discriminate.
      * rewrite Hs in E1. injection E1 as <- _. exact Hc.
    + intros r c ->. unfold strip in Hs. eapply rstrip_last. exact Hs.
  - exists None, w. split; [reflexivity|]. split; [discriminate|auto].
Qed.

(** X3.  When the first parser reads every page and finds text, the result
    is the texts of the pages that have some, in the order of the pages,
    each followed by a blank line, the whole stripped; the second parser is
    not called. *)
Theorem extraction_keeps_page_order
    (svc : Services) (f : UploadedFile) (w : World)
    (pages : list (option str)) :
  fst (pdfplumber_open svc (getvalue f) (cursor w)) = Ok (List.map Ok pages) ->
  ~ blank (join_pages pages) ->
  exists w',
    extract_pdf_text svc (Some f) w = (Ok (Some (strip (join_pages pages))), w')
    /\ calls w' = calls w ++ [PdfplumberOpen (getvalue f) (cursor w)].
Proof.
  intros Hp Hb. apply strip_truthy_not_blank in Hb.
  unfold extract_pdf_text, open_with_pdfplumber.
  unfold try_except, bind, get_cursor, set_cursor, record_call, lift, log, ret.
  cbn [logged calls cursor].
  destruct (pdfplumber_open svc (getvalue f) (cursor w)) as [r1 pos1].
  cbn [fst] in Hp. subst r1. cbn [logged calls cursor].
  rewrite pages_text_in_order. cbn [app]. rewrite Hb.
  cbn [logged calls cursor]. eexists. split; reflexivity.
Qed.

Lemma extraction_keeps_page_order_witness :
  exists w',
    extract_pdf_text paged_services (Some scanned_file) empty_world
    = (Ok (Some (lit "Page one." ++ [10%N; 10%N] ++ lit "Page two.")), w')
    /\ calls w' = [PdfplumberOpen (getvalue scanned_file) 0].
Proof.
  apply (extraction_keeps_page_order paged_services scanned_file empty_world
           [Some (lit "Page one."); None; Some []; Some (lit "Page two. ")]).
  - reflexivity.
  - apply strip_truthy_not_blank. reflexivity.
Defined.

End MoreExtraction.

(** ** The summarizer and its truncation *)

Section MoreSummarizer.

Import ClaudeClient ElevenLabs.





Lemma startswith_break (s : str) (k : nat) :
  startswith paragraph_break (skipn k s) = true <-> break_at s k.
Proof.
  unfold paragraph_break, break_at.
  revert k. induction s as [|c r IH]; intros [|k];
    cbn [startswith skipn nth_error].
  - split; [discriminate|intros [H _]; discriminate].
  - split; [discriminate|intros [H _]; discriminate].
  - destruct r as [|d r']; cbn [startswith nth_error].
    + rewrite andb_false_r. split; [discriminate|intros [_ H]; discriminate].
    + rewrite andb_true_r, andb_true_iff, !N.eqb_eq.
      split; intros [H1 H2].
      * subst. split; reflexivity.
      * injection H1 as ->. injection H2 as ->. split; reflexivity.
  - apply IH.
Qed.

Lemma rfind_break_last (s : str) (i : Z) :
  last_break_at s i <-> (0 <= i /\ rfind s paragraph_break = i).
Proof.
  unfold rfind, last_break_at.
  destruct (rfind_from_spec paragraph_break s 0 (-1))
    as [[E N]|(k & Hk & E & Hm & Hn)]; rewrite E.
  - split.
    + intros (H0 & Hi & _). exfalso.
      pose proof (nth_error_some_lt s _ _ (proj1 Hi)) as L.
      apply startswith_break in Hi. rewrite N in Hi by lia. discriminate.
    + intros [H0 H1]. lia.
  - apply startswith_break in Hm. split.
    + intros (H0 & Hi & Hlast). split; [assumption|].
      destruct (Nat.lt_trichotomy k (Z.to_nat i)) as [L|[L|L]].
      * pose proof (nth_error_some_lt s _ _ (proj1 Hi)) as Li.
        apply startswith_break in Hi. rewrite Hn in Hi by lia. discriminate.
      * lia.
      * exfalso. exact (Hlast k L Hm).
    + intros [H0 H1]. assert (Ei : Z.to_nat i = k) by lia.
      rewrite Ei. split; [assumption|]. split; [exact Hm|].
      intros j Hj Hc.
      pose proof (nth_error_some_lt s _ _ (proj1 Hc)) as Lj.
      apply startswith_break in Hc. rewrite Hn in Hc by lia. discriminate.
Qed.

Lemma threshold_396000 :
  PyFloat.int_mul 396000 PyFloat.f0_8
  = Ok (S754_finite false 5442582557491200 (-34)).
Proof. vm_compute. reflexivity. Qed.

Lemma int_gt_316800 (k : Z) :
  PyFloat.int_gt k (S754_finite false 5442582557491200 (-34)) = (316800 <? k).
Proof.
  unfold PyFloat.int_gt, PyFloat.cmp_int.
  change (0 <=? -34) with false. cbv iota.
  change (2 ^ (- -34)) with 17179869184.
  destruct (Z.compare_spec (k * 17179869184) 5442582557491200);
    symmetry; [apply Z.ltb_ge | apply Z.ltb_ge | apply Z.ltb_lt]; lia.
Qed.

(** X5.  With the limit of 100000 tokens, a text of more than 99000
    estimated tokens is cut to its first 396000 characters, and further to
    just before the last blank line of these when that blank line starts
    beyond index 316800; one warning and one record of the new length are
    logged. *)
Theorem summarizer_cuts_at_last_blank_line
    (self : ClaudeProcessor) (pdf_text : str) (w : World) :
  max_input_tokens self = 100000 ->
  99000 < estimate_tokens pdf_text ->
  exists r w',
    truncate_pdf_content self pdf_text w = (Ok r, w')
    /\ logged w'
       = logged w ++ [(WARNING, ContentExceedsLimit (estimate_tokens pdf_text));
                      (INFO, TruncatedTo (len r))]
    /\ (forall i, last_break_at (slice_to pdf_text 396000) i -> 316800 < i ->
                  r = slice_to pdf_text i)
    /\ ((forall i, last_break_at (slice_to pdf_text 396000) i -> i <= 316800) ->
        r = slice_to pdf_text 396000).
Proof.
  intros Hm He. unfold truncate_pdf_content. rewrite Hm.
  change (100000 - 1000) with 99000.
  replace (estimate_tokens pdf_text <=? 99000) with false
    by (symmetry; apply Z.leb_gt; exact He).
  change (99000 * 4) with 396000.
  unfold bind, log, lift, ret. rewrite threshold_396000.
  cbn [logged calls cursor]. rewrite int_gt_316800.
  eexists _, _. split; [reflexivity|]. cbn [logged calls cursor].
  split; [rewrite <- app_assoc; reflexivity|].
  pose proof (rfind_range (slice_to pdf_text 396000) paragraph_break) as R.
  change (len paragraph_break) with 2 in R.
  pose proof (slice_to_len pdf_text 396000 ltac:(lia)) as L.
  split.
  - intros i Hi Hgt. apply rfind_break_last in Hi. destruct Hi as [_ Hi].
    rewrite Hi. apply Z.ltb_lt in Hgt. rewrite Hgt.
    apply slice_to_slice_to. lia.
  - intro Hall. destruct (316800 <? _) eqn:G; [|reflexivity].
    apply Z.ltb_lt in G. exfalso.
    specialize (Hall (rfind (slice_to pdf_text 396000) paragraph_break)).
    assert (B : last_break_at (slice_to pdf_text 396000)
                  (rfind (slice_to pdf_text 396000) paragraph_break))
      by (apply rfind_break_last; split; [lia|reflexivity]).
    specialize (Hall B). lia.
Qed.

Lemma len_long_paper : len long_paper = 400002.
Proof.
  unfold long_paper, len. rewrite !length_app, !repeat_length.
  cbn [List.length]. rewrite !Nat2Z.inj_add, !Z2Nat.id by discriminate.
  reflexivity.
Qed.

Lemma summarizer_cuts_at_last_blank_line_witness :
  exists r w',
    truncate_pdf_content default_claude long_paper empty_world = (Ok r, w')
    /\ logged w'
       = logged empty_world
           ++ [(WARNING, ContentExceedsLimit (estimate_tokens long_paper));
               (INFO, TruncatedTo (len r))]
    /\ (forall i, last_break_at (slice_to long_paper 396000) i -> 316800 < i ->
                  r = slice_to long_paper i)
    /\ ((forall i, last_break_at (slice_to long_paper 396000) i -> i <= 316800) ->
        r = slice_to long_paper 396000).
Proof.
  apply (summarizer_cuts_at_last_blank_line default_claude long_paper empty_world).
  - reflexivity.
  - unfold estimate_tokens. rewrite len_long_paper. reflexivity.
Defined.

(** X6.  A cut never gives up more than the last fifth of the window: with
    the default limits, a paper that is cut keeps more than 316800 of the
    396000 characters, and a summary that is cut keeps more than 4001 of
    the 5000. *)
Theorem cuts_keep_most_of_the_window
    (self : ClaudeProcessor) (pdf_text text : str) (w : World) :
  max_input_tokens self = 100000 ->
  99000 < estimate_tokens pdf_text ->
  ~ blank text -> 5000 < len text ->
  (exists r w', truncate_pdf_content self pdf_text w = (Ok r, w')
                /\ 316800 < len r <= 396000)
  /\ (exists r w', validate_text_length text default_max_chars w = (Ok r, w')
                   /\ 4001 < len r <= 5000).
Proof.
  intros Hm He Hn Hl. split.
  - unfold truncate_pdf_content. rewrite Hm.
    change (100000 - 1000) with 99000.
    replace (estimate_tokens pdf_text <=? 99000) with false
      by (symmetry; apply Z.leb_gt; exact He).
    change (99000 * 4) with 396000.
    unfold bind, log, lift, ret. rewrite threshold_396000.
    cbn [logged calls cursor]. rewrite int_gt_316800.
    eexists _, _. split; [reflexivity|].
    pose proof (rfind_range (slice_to pdf_text 396000) paragraph_break) as R.
    change (len paragraph_break) with 2 in R.
    assert (L : len (slice_to pdf_text 396000) = 396000).
    { rewrite slice_to_len by lia. unfold estimate_tokens in He.
      pose proof (Z.mul_div_le (len pdf_text) 4 ltac:(lia)).
      pose proof (Z.mod_pos_bound (len pdf_text) 4 ltac:(lia)).
      pose proof (Z.div_mod (len pdf_text) 4 ltac:(lia)). lia. }
    destruct (316800 <? _) eqn:G.
    + apply Z.ltb_lt in G. rewrite slice_to_len by lia. lia.
    + lia.
  - destruct (validate_text_length_run text default_max_chars w Hn
                ltac:(reflexivity)) as (r & w' & E & _ & C).
    exists r, w'. split; [exact E|]. unfold default_max_chars in *.
    destruct C as [(Hs & _)|(_ & t & Ht & ->)]; [lia|].
    rewrite threshold_5000 in Ht. injection Ht as <-.
    cbv zeta. rewrite int_gt_4000.
    pose proof (rfind_range (slice_to text 5000) period) as R.
    change (len period) with 1 in R.
    pose proof (slice_to_len text 5000 ltac:(lia)) as L.
    destruct (4000 <? _) eqn:G.
    + apply Z.ltb_lt in G. rewrite slice_to_len by lia. lia.
    + lia.
Qed.

(** X7.  Truncation is idempotent: [truncate_pdf_content] returns its own
    result unchanged, and so does [validate_text_length] when its result
    is not blank; when it is blank (the kept part was white space only)
    the second call raises the [ValueError] for empty input. *)
Theorem truncating_twice_is_truncating_once
    (self : ClaudeProcessor) (pdf_text text : str) (max_chars : Z) (w : World) :
  1000 <= max_input_tokens self < 2 ^ 50 ->
  ~ blank text -> 0 <= max_chars < 2 ^ 53 ->
  (exists r w',
      truncate_pdf_content self pdf_text w = (Ok r, w')
      /\ truncate_pdf_content self r w' = (Ok r, w'))
  /\ (exists r w',
        validate_text_length text max_chars w = (Ok r, w')
        /\ (~ blank r -> validate_text_length r max_chars w' = (Ok r, w'))
        /\ (blank r ->
            validate_text_length r max_chars w'
            = (Raise (ValueError (lit "Text cannot be empty")), w'))).
Proof.
  intros Hm Hn Hc. split.
  - destruct (truncate_pdf_content_run self pdf_text w) as (r & w' & E & _ & C).
    { change (2 ^ 50) with 1125899906842624 in Hm.
      change (2 ^ 53) with 9007199254740992. lia. }
    exists r, w'. split; [exact E|].
    apply truncate_pdf_content_short.
    destruct C as [(Hs & -> & _)|(_ & C)]; [exact Hs|].
    assert (L : len r <= (max_input_tokens self - 1000) * 4).
    { destruct C as [->| ->].
      - rewrite slice_to_len by lia. lia.
      - match goal with |- len (slice_to ?t ?k) <= _ =>
          pose proof (is_prefix_len _ _ (slice_to_prefix t k)) as P end.
        rewrite (slice_to_len pdf_text) in P by lia. lia. }
    unfold estimate_tokens. apply Z.div_le_upper_bound; lia.
  - destruct (validate_text_length_run text max_chars w Hn ltac:(lia))
      as (r & w' & E & _ & C).
    exists r, w'. split; [exact E|].
    assert (L : len r <= max_chars).
    { destruct C as [(Hs & -> & _)|(_ & t & _ & ->)]; [exact Hs|].
      cbv zeta. destruct (PyFloat.int_gt _ t).
      - match goal with |- len (slice_to ?t ?k) <= _ =>
          pose proof (is_prefix_len _ _ (slice_to_prefix t k)) as P end.
        rewrite (slice_to_len text) in P by lia. lia.
      - rewrite slice_to_len by lia. lia. }
    split.
    + intro Hr. apply validate_text_length_short; assumption.
    + intro Hr. apply validate_text_length_blank. exact Hr.
Qed.


Example summarizer_passes_error_on :
  generate_summary failing_services default_claude
    (lit "A paper about rounding.") 3 empty_world
  = (Raise (APIError (lit "overloaded")),
     {| logged := [(INFO, GeneratingSummary 23);
                   (ERROR, ClaudeAPIError (APIError (lit "overloaded")))];
        calls := [MessagesCreate default_model 2000 PyFloat.f0_1
                    (create_summary_prompt (lit "A paper about rounding.") 3)];
        cursor := 0 |}).
Proof. vm_compute. reflexivity. Qed.

Lemma cuts_keep_most_witness :
  (exists r w', truncate_pdf_content default_claude long_paper empty_world
                = (Ok r, w')
                /\ 316800 < len r <= 396000)
  /\ (exists r w',
        validate_text_length sample_summary default_max_chars empty_world
        = (Ok r, w')
        /\ 4001 < len r <= 5000).
Proof.
  apply (cuts_keep_most_of_the_window default_claude long_paper sample_summary
           empty_world).
  - reflexivity.
  - unfold estimate_tokens. rewrite len_long_paper. reflexivity.
  - apply strip_truthy_not_blank. vm_compute. reflexivity.
  - vm_compute. reflexivity.
Defined.

Lemma truncating_twice_witness :
  (exists r w',
      truncate_pdf_content default_claude long_paper empty_world = (Ok r, w')
      /\ truncate_pdf_content default_claude r w' = (Ok r, w'))
  /\ (exists r w',
        validate_text_length sample_summary 5000 empty_world = (Ok r, w')
        /\ (~ blank r -> validate_text_length r 5000 w' = (Ok r, w'))
        /\ (blank r ->
            validate_text_length r 5000 w'
            = (Raise (ValueError (lit "Text cannot be empty")), w'))).
Proof.
  apply (truncating_twice_is_truncating_once default_claude long_paper
           sample_summary 5000 empty_world).
  - vm_compute. split; [discriminate|reflexivity].
  - apply strip_truthy_not_blank. vm_compute. reflexivity.
  - vm_compute. split; [discriminate|reflexivity].
Defined.

End MoreSummarizer.

(** ** The synthesizer *)

Section MoreSynthesizer.

Import ElevenLabs.

Lemma split_from_length (w s : str) :
  (List.length (split_from w s)
   <= List.length s + (if truthy w then 1 else 0))%nat.
Proof.
  revert w. induction s as [|c r IH]; intro w; cbn [split_from].
  - destruct (truthy w); simpl; lia.
  - destruct (isspace c).
    + destruct (truthy w); [cbn [List.length]|]; specialize (IH []);
        simpl in IH; simpl; lia.
    + specialize (IH (w ++ [c])).
      replace (truthy (w ++ [c])) with true in IH
        by (destruct w; reflexivity).
      simpl. destruct (truthy w); lia.
Qed.

Lemma word_count_le_len (s : str) : 0 <= word_count s <= len s.
Proof.
  unfold word_count, len, split.
  pose proof (split_from_length [] s) as H. simpl in H. lia.
Qed.

Lemma estimate_audio_duration_run (text : str) (wpm : Z) (w : World) :
  0 < wpm -> word_count text < 2 ^ 1000 ->
  exists d,
    estimate_audio_duration text wpm w
    = (Ok d, {| logged := logged w ++ [(INFO, EstimatedDuration d (word_count text))];
                calls := calls w; cursor := cursor w |})
    /\ PyFloat.finite_above d
    /\ PyFloat.units d = PyFloat.div_units (word_count text) wpm.
Proof.
  intros Hp Hlt. pose proof (word_count_le_len text) as [H0 _].
  destruct (true_div_units (word_count text) wpm (conj H0 Hlt) Hp)
    as (d & E & F & U).
  exists d. unfold estimate_audio_duration, bind, lift, log, ret.
  rewrite E. auto.
Qed.

Lemma generate_audio_run
    (svc : Services) (self : ElevenLabsProcessor) (text : str) (w : World) :
  ~ blank text ->
  exists processed r w',
    generate_audio svc self text w = (r, w')
    /\ is_prefix processed text
    /\ len processed <= 5000
    /\ calls w'
       = calls w ++ [TextToSpeechConvert (voice_id self) (output_format self)
                       processed (model_id self)]
    /\ audio_outcome
         (text_to_speech_convert svc (voice_id self) (output_format self)
            processed (model_id self)) r.
Proof.
  intro Hn.
  destruct (validate_text_length_run text default_max_chars w Hn
              ltac:(reflexivity)) as (p & w1 & E & Hc & Hp).
  assert (Pre : is_prefix p text /\ len p <= 5000).
  { unfold default_max_chars in Hp.
    destruct Hp as [(Hl & -> & _)|(_ & t & _ & ->)].
    - split; [apply is_prefix_refl|exact Hl].
    - cbv zeta. destruct (PyFloat.int_gt _ t).
      + split; [eapply is_prefix_trans; apply slice_to_prefix|].
        match goal with |- len (slice_to ?t ?k) <= _ =>
          pose proof (is_prefix_len _ _ (slice_to_prefix t k)) as P end.
        rewrite (slice_to_len text) in P by lia. lia.
      + split; [apply slice_to_prefix|]. rewrite slice_to_len by lia. lia. }
  destruct Pre as [Pre Hlen].
  assert (Hw : word_count p < 2 ^ 1000).
  { pose proof (word_count_le_len p) as [_ Hle].
    apply Z.le_lt_trans with 5000; [lia|reflexivity]. }
  destruct (estimate_audio_duration_run p 150 w1 ltac:(lia) Hw) as (d & Ed & _).
  exists p. unfold generate_audio.
  unfold bind at 1. rewrite E. unfold bind at 1. rewrite Ed.
  unfold _generate_sync, try_except, bind, record_call, lift, log, ret,
    join_chunks, audio_outcome.
  cbn [logged calls cursor]. rewrite Hc.
  destruct (text_to_speech_convert svc (voice_id self) (output_format self)
              p (model_id self)) as [[b|chunks [e|]]|e];
    cbn [logged calls cursor].
  all: eexists _, _; split; [reflexivity|]; cbn [logged calls cursor].
  all: split; [exact Pre|]; split; [exact Hlen|]; split; reflexivity.
Qed.

(** X8.  For a text that is not blank [generate_audio] calls the service
    exactly once, with the configured voice, format and model, on an
    initial segment of the text of at most 5000 characters.  Bytes are
    returned as they are, chunks joined in the order received, and an
    exception of the call or of the chunk iterator comes out as a
    [RuntimeError] that carries it as its cause. *)
Theorem synthesizer_asks_once_joins_chunks_and_wraps_errors
    (svc : Services) (self : ElevenLabsProcessor) (text : str) (w : World) :
  ~ blank text ->
  exists processed r w',
    generate_audio svc self text w = (r, w')
    /\ is_prefix processed text
    /\ len processed <= 5000
    /\ calls w'
       = calls w ++ [TextToSpeechConvert (voice_id self) (output_format self)
                       processed (model_id self)]
    /\ audio_outcome
         (text_to_speech_convert svc (voice_id self) (output_format self)
            processed (model_id self)) r.
Proof.
  intro Hn.
  destruct (generate_audio_run svc self text w Hn) as (p & r & w' & H).
  exists p, r, w'. exact H.
Qed.

Lemma round_half_even_exact (m d : Z) :
  0 < d -> PyFloat.round_half_even (m * d) d = m.
Proof.
  intro Hd. unfold PyFloat.round_half_even.
  rewrite Z.div_mul by lia. rewrite Z.mod_mul by lia.
  replace (2 * 0 ?= d) with Lt by (symmetry; apply Z.compare_lt_iff; lia).
  reflexivity.
Qed.

(** A quotient that is a whole number [n] of units of [2^-1074] and fits
    in 53 bits is not rounded. *)
Lemma div_units_exact (a b n k : Z) :
  0 < b -> 0 <= k < 2 ^ 53 -> 0 <= n -> a * 2 ^ 1074 = k * 2 ^ n * b ->
  PyFloat.div_units a b = k * 2 ^ n.
Proof.
  intros Hb Hk Hn E. unfold PyFloat.div_units, PyFloat.div_round.
  rewrite E. rewrite Z.div_mul by lia.
  set (s := Z.max 0 (Z.log2 (k * 2 ^ n) - 52)).
  assert (Hp : 0 < 2 ^ n) by (apply Z.pow_pos_nonneg; lia).
  assert (Hs : 0 <= s <= n).
  { subst s. destruct (Z.eq_dec k 0) as [->|NZ].
    - rewrite Z.mul_0_l. change (Z.log2 0) with 0. lia.
    - rewrite Z.log2_mul_pow2 by lia.
      assert (Z.log2 k < 53) by (apply Z.log2_lt_pow2; lia). lia. }
  clearbody s.
  assert (Hps : 0 < 2 ^ s) by (apply Z.pow_pos_nonneg; lia).
  replace (k * 2 ^ n * b) with (k * 2 ^ (n - s) * (b * 2 ^ s)).
  - rewrite round_half_even_exact by nia.
    rewrite <- Z.mul_assoc, <- Z.pow_add_r by lia. do 2 f_equal. lia.
  - replace (2 ^ n) with (2 ^ (n - s) * 2 ^ s)
      by (rewrite <- Z.pow_add_r by lia; f_equal; lia).
    ring.
Qed.

Lemma compare_scale (a b p : Z) : 0 < p -> (a * p ?= b * p) = (a ?= b).
Proof.
  intro Hp. destruct (Z.compare_spec a b).
  - subst. apply Z.compare_refl.
  - apply Z.compare_lt_iff. nia.
  - apply Z.compare_gt_iff. nia.
Qed.

Lemma cmp_int_units (k : Z) (f : PyFloat.float) :
  PyFloat.finite_above f ->
  PyFloat.cmp_int k f = Some (k * 2 ^ 1074 ?= PyFloat.units f).
Proof.
  destruct f as [s|s| |s m e];
    cbn [PyFloat.cmp_int PyFloat.units PyFloat.finite_above];
    try contradiction; intro He.
  - f_equal. destruct (Z.compare_spec k 0); symmetry;
      [apply Z.compare_eq_iff | apply Z.compare_lt_iff | apply Z.compare_gt_iff];
      lia.
  - f_equal. fold (PyFloat.signed s m).
    set (v := PyFloat.signed s m).
    assert (P : 0 < 2 ^ (e + 1074)) by (apply Z.pow_pos_nonneg; lia).
    destruct (0 <=? e) eqn:G.
    + apply Z.leb_le in G.
      replace (2 ^ (e + 1074)) with (2 ^ e * 2 ^ 1074)
        by (rewrite <- Z.pow_add_r by lia; reflexivity).
      rewrite Z.mul_assoc. symmetry. apply compare_scale. reflexivity.
    + apply Z.leb_gt in G.
      replace (2 ^ 1074) with (2 ^ (- e) * 2 ^ (e + 1074))
        by (rewrite <- Z.pow_add_r by lia; f_equal; lia).
      rewrite Z.mul_assoc. symmetry. apply compare_scale. exact P.
Qed.

Lemma true_div_exact (a b n k : Z) :
  0 <= a -> 0 < b -> 0 <= k < 2 ^ 53 -> 0 <= n <= 2044 ->
  a * 2 ^ 1074 = k * 2 ^ n * b ->
  exists f, PyFloat.true_div a b = Ok f /\ PyFloat.finite_above f
            /\ PyFloat.units f = k * 2 ^ n.
Proof.
  intros Ha Hb Hk Hn E.
  pose proof (div_units_exact a b n k Hb Hk (proj1 Hn) E) as U.
  unfold PyFloat.div_units in U.
  unfold PyFloat.true_div.
  replace (b =? 0) with false by (symmetry; apply Z.eqb_neq; lia).
  replace (a <? 0) with false by (symmetry; apply Z.ltb_ge; lia).
  replace (b <? 0) with false by (symmetry; apply Z.ltb_ge; lia).
  rewrite !Z.abs_eq by lia. cbn [xorb].
  assert (S : 0 <= snd (PyFloat.div_round a b) <= n
              /\ 0 <= fst (PyFloat.div_round a b)).
  { unfold PyFloat.div_round. cbn [fst snd]. rewrite E, Z.div_mul by lia.
    assert (Hp : 0 < 2 ^ n) by (apply Z.pow_pos_nonneg; lia).
    assert (Hs : 0 <= Z.max 0 (Z.log2 (k * 2 ^ n) - 52) <= n).
    { destruct (Z.eq_dec k 0) as [->|NZ].
      - rewrite Z.mul_0_l. change (Z.log2 0) with 0. lia.
      - rewrite Z.log2_mul_pow2 by lia.
        assert (Z.log2 k < 53) by (apply Z.log2_lt_pow2; lia). lia. }
    split; [exact Hs|].
    set (s := Z.max 0 (Z.log2 (k * 2 ^ n) - 52)) in *.
    assert (Hps : 0 < 2 ^ s) by (apply Z.pow_pos_nonneg; lia).
    pose proof (round_half_even_bounds (k * 2 ^ n * b) (b * 2 ^ s) ltac:(nia)).
    assert (0 <= k * 2 ^ n * b / (b * 2 ^ s)) by (apply Z.div_pos; nia).
    lia. }
  destruct (PyFloat.div_round a b) as [m shift]. cbn [fst snd] in S.
  destruct (pack_units false m (shift - 1074) ltac:(lia) ltac:(lia))
    as (f & Ef & F & Uf).
  exists f. repeat split; try assumption.
  rewrite Uf, <- U. do 2 f_equal. lia.
Qed.

(** X10.  A text of [minutes * words_per_minute] words has an estimated
    duration of exactly [minutes]: the division is not rounded. *)
Theorem duration_is_exact_for_whole_minutes
    (text : str) (words_per_minute minutes : Z) (w : World) :
  0 < words_per_minute ->
  0 <= minutes < 2 ^ 53 ->
  word_count text = minutes * words_per_minute ->
  exists d w',
    estimate_audio_duration text words_per_minute w = (Ok d, w')
    /\ PyFloat.cmp_int minutes d = Some Eq.
Proof.
  intros Hp Hm Hw.
  assert (H0 : 0 <= word_count text) by (unfold word_count; lia).
  assert (He : word_count text * 2 ^ 1074
               = minutes * 2 ^ 1074 * words_per_minute) by (rewrite Hw; ring).
  destruct (true_div_exact (word_count text) words_per_minute 1074 minutes
              H0 Hp Hm ltac:(lia) He) as (d & E & F & U).
  unfold estimate_audio_duration, bind, lift, log, ret. rewrite E.
  eexists _, _. split; [reflexivity|].
  rewrite (cmp_int_units minutes d F), U. f_equal. apply Z.compare_refl.
Qed.

Lemma split_from_blank (s : str) : blank s -> split_from [] s = [].
Proof.
  unfold blank. induction s as [|c r IH]; intro H; [reflexivity|].
  cbn [split_from]. rewrite (Forall_inv H). cbn [truthy].
  apply IH. exact (Forall_inv_tail H).
Qed.

(** X11.  [estimate_audio_duration] with a rate of 0 raises
    [ZeroDivisionError] and logs nothing; a blank text has 0 words and a
    duration of 0.0 at any positive rate. *)
Theorem duration_of_blank_text_and_zero_rate
    (text : str) (words_per_minute : Z) (w : World) :
  (words_per_minute = 0 ->
   estimate_audio_duration text words_per_minute w
   = (Raise (ZeroDivisionError (lit "division by zero")), w))
  /\ (blank text -> 0 < words_per_minute ->
      estimate_audio_duration text words_per_minute w
      = (Ok (S754_zero false),
         {| logged := logged w ++ [(INFO, EstimatedDuration (S754_zero false) 0)];
            calls := calls w; cursor := cursor w |})).
Proof.
  split.
  - intros ->. reflexivity.
  - intros Hb Hp. unfold estimate_audio_duration, word_count, split.
    rewrite (split_from_blank text Hb). cbn [List.length Z.of_nat].
    unfold PyFloat.true_div.
    replace (words_per_minute =? 0) with false
      by (symmetry; apply Z.eqb_neq; lia).
    replace (words_per_minute <? 0) with false
      by (symmetry; apply Z.ltb_ge; lia).
    unfold PyFloat.div_round. cbn [Z.abs Z.mul].
    rewrite Z.div_0_l by lia. change (Z.log2 0 - 52) with (-52).
    change (Z.max 0 (-52)) with 0. change (2 ^ 0) with 1.
    unfold PyFloat.round_half_even. rewrite Z.abs_eq by lia.
    rewrite Z.mul_1_r, Z.div_0_l, Z.mod_0_l by lia.
    replace (2 * 0 ?= words_per_minute) with Lt
      by (symmetry; apply Z.compare_lt_iff; lia).
    reflexivity.
Qed.

Lemma synthesizer_asks_once_witness :
  exists processed r w',
    generate_audio working_services default_eleven
      (lit "A short summary of the paper.") empty_world = (r, w')
    /\ is_prefix processed (lit "A short summary of the paper.")
    /\ len processed <= 5000
    /\ calls w'
       = calls empty_world
           ++ [TextToSpeechConvert (voice_id default_eleven)
                 (output_format default_eleven) processed
                 (model_id default_eleven)]
    /\ audio_outcome
         (text_to_speech_convert working_services (voice_id default_eleven)
            (output_format default_eleven) processed (model_id default_eleven))
         r.
Proof.
  apply (synthesizer_asks_once_joins_chunks_and_wraps_errors working_services
           default_eleven (lit "A short summary of the paper.") empty_world).
  apply strip_truthy_not_blank. reflexivity.
Defined.

Example synthesizer_joins_chunks :
  fst (generate_audio working_services default_eleven
         (lit "A short summary of the paper.") empty_world)
  = Ok [Byte.x49; Byte.x44; Byte.x33].
Proof. vm_compute. reflexivity. Qed.

Lemma duration_is_exact_witness :
  exists d w',
    estimate_audio_duration three_hundred_words 150 empty_world = (Ok d, w')
    /\ PyFloat.cmp_int 2 d = Some Eq.
Proof.
  apply (duration_is_exact_for_whole_minutes three_hundred_words 150 2
           empty_world).
  - reflexivity.
  - split; [discriminate|reflexivity].
  - vm_compute. reflexivity.
Defined.

End MoreSynthesizer.

(** ** The pipeline and the upload *)

Section Pipeline.

Import ClaudeClient ElevenLabs App.

(** X16.  The size test of the upload is exact: a file is refused exactly
    when it has more than [max_size_mb * 1048576] bytes.  The float
    quotient by 1048576 loses nothing. *)
Theorem upload_size_check_is_exact (data : bytes) (max_size_mb : Z) :
  Z.of_nat (List.length data) < 2 ^ 53 ->
  file_too_large data max_size_mb
  = Ok (max_size_mb * 1048576 <? Z.of_nat (List.length data)).
Proof.
  intro Hl. unfold file_too_large. change (1024 * 1024) with 1048576.
  assert (He : Z.of_nat (List.length data) * 2 ^ 1074
               = Z.of_nat (List.length data) * 2 ^ 1054 * 1048576)
    by (rewrite <- Z.mul_assoc; f_equal).
  destruct (true_div_exact (Z.of_nat (List.length data)) 1048576 1054
              (Z.of_nat (List.length data))
              ltac:(lia) ltac:(lia) ltac:(lia) ltac:(lia) He)
    as (f & E & F & U).
  rewrite E. f_equal. unfold PyFloat.int_lt.
  rewrite (cmp_int_units max_size_mb f F), U.
  replace (max_size_mb * 2 ^ 1074) with (max_size_mb * 1048576 * 2 ^ 1054)
    by (rewrite <- Z.mul_assoc; f_equal).
  rewrite compare_scale by reflexivity.
  destruct (Z.compare_spec (max_size_mb * 1048576) (Z.of_nat (List.length data)));
    symmetry; [apply Z.ltb_ge | apply Z.ltb_lt | apply Z.ltb_ge]; lia.
Qed.

Lemma try_finally_run {A : Type} (m : M A) (c1 c2 : call) (w : World) :
  try_finally m (bind (record_call c1) (fun _ => record_call c2)) w
  = (fst (m w), {| logged := logged (snd (m w));
                   calls := (calls (snd (m w)) ++ [c1]) ++ [c2];
                   cursor := cursor (snd (m w)) |}).
Proof.
  unfold try_finally, bind, record_call. destruct (m w) as [r w1]. reflexivity.
Qed.

(** X12.  [process_pdf_to_audio] never raises, whatever the services do, and
    the last two things it does are to clear the progress bar and the
    status line. *)
Theorem pipeline_never_raises_and_always_cleans_up
    (svc : Services) (claude_client : ClaudeProcessor)
    (elevenlabs_client : ElevenLabsProcessor)
    (uploaded_file : UploadedFile) (target_minutes : Z) (w : World) :
  exists w' before,
    process_pdf_to_audio svc claude_client elevenlabs_client uploaded_file
      target_minutes w = (Ok tt, w')
    /\ calls w' = before ++ [StProgressEmpty; StStatusEmpty].
Proof.
  unfold process_pdf_to_audio. unfold bind at 1.
  unfold record_call at 1. cbv beta iota.
  rewrite try_finally_run.
  match goal with |- context [try_except ?b ?h ?w0] =>
    set (body := b); set (w0' := w0) end.
  unfold try_except.
  destruct (body w0') as [[[]|e] w1]; cbn [fst snd].
  - eexists _, _. split; [reflexivity|]. cbn [calls].
    rewrite <- app_assoc. reflexivity.
  - unfold bind, record_call, log. cbn [fst snd logged calls cursor].
    eexists _, _. split; [reflexivity|]. cbn [calls].
    rewrite <- app_assoc. reflexivity.
Qed.

Ltac enter_pipeline :=
  unfold process_pdf_to_audio; unfold bind at 1;
  unfold record_call at 1; cbv beta iota;
  rewrite try_finally_run;
  unfold try_except, bind, record_call, ret, log; cbv beta iota;
  cbn [logged calls cursor fst snd].

Ltac run_extraction svc f :=
  match goal with
  | |- context [extract_pdf_text svc (Some f) ?W] =>
      let w2 := fresh "w2" in
      let E := fresh "E" in
      let C := fresh "C" in
      destruct (extract_pdf_text_run svc f W) as (w2 & E & C & _);
      cbn [logged calls cursor] in E, C;
      rewrite E; cbv beta iota; cbn [logged calls cursor fst snd]
  end.

(** X13.  When neither parser finds text the pipeline shows the two error
    messages and stops: neither the summarizer nor the synthesizer is
    called. *)
Theorem pipeline_without_text_calls_no_service
    (svc : Services) (claude_client : ClaudeProcessor)
    (elevenlabs_client : ElevenLabsProcessor)
    (f : UploadedFile) (target_minutes : Z) (w : World) :
  extracted (fst (pdfplumber_open svc (getvalue f) (cursor w))) = None ->
  extracted (fst (pypdf2_reader svc (getvalue f) 0)) = None ->
  exists w',
    process_pdf_to_audio svc claude_client elevenlabs_client f
      target_minutes w = (Ok tt, w')
    /\ calls w'
       = calls w
           ++ [StProgress 0;
               StStatusText ([128196%N] ++ lit " Extracting text from PDF...");
               StProgress 20;
               PdfplumberOpen (getvalue f) (cursor w);
               PyPDF2Reader (getvalue f) 0;
               StError extraction_failed;
               StError ([10060%N] ++ lit " Failed to extract text from PDF");
               StProgressEmpty;
               StStatusEmpty].
Proof.
  intros H1 H2. enter_pipeline. run_extraction svc f.
  rewrite H1, H2 in *. cbv beta iota. cbn [logged calls cursor fst snd].
  eexists. split; [reflexivity|]. cbn [calls]. rewrite C.
  rewrite <- !app_assoc. reflexivity.
Qed.





Lemma text_to_audio_file_run
    (svc : Services) (self : ElevenLabsProcessor) (text filename : str)
    (w : World) :
  ~ blank text ->
  exists spoken r w',
    text_to_audio_file svc self text filename w = (r, w')
    /\ is_prefix spoken text
    /\ len spoken <= 5000
    /\ calls w'
       = calls w ++ [TextToSpeechConvert (voice_id self) (output_format self)
                       spoken (model_id self)]
    /\ file_outcome
         (text_to_speech_convert svc (voice_id self) (output_format self)
            spoken (model_id self)) filename r.
Proof.
  intro Hn. unfold text_to_audio_file.
  unfold bind at 1. unfold log at 1. cbv beta iota.
  unfold try_except. unfold bind at 1.
  match goal with |- context [generate_audio svc self text ?W] =>
    destruct (generate_audio_run svc self text W Hn)
      as (p & ra & w1 & E & Pre & Hl & C & Out) end.
  cbn [logged calls cursor] in C. rewrite E. exists p.
  unfold file_outcome.
  destruct ra as [a|e].
  - unfold create_audio_file, bind, log, ret. cbn [logged calls cursor].
    eexists _, _. split; [reflexivity|]. cbn [calls].
    repeat split; try assumption. exists (Ok a). split; [exact Out|reflexivity].
  - unfold bind, log, raise. cbn [logged calls cursor].
    eexists _, _. split; [reflexivity|]. cbn [calls].
    repeat split; try assumption. exists (Raise e). split; [exact Out|reflexivity].
Qed.




(** X9.  [text_to_audio_file] makes one call to the service and returns a
    file that holds exactly the audio of [generate_audio], under the
    requested name, positioned at its start; an exception of
    [generate_audio] comes out unchanged. *)
Theorem audio_file_carries_the_audio_and_the_name
    (svc : Services) (self : ElevenLabsProcessor) (text filename : str)
    (w : World) :
  ~ blank text ->
  exists spoken r w',
    text_to_audio_file svc self text filename w = (r, w')
    /\ calls w'
       = calls w ++ [TextToSpeechConvert (voice_id self) (output_format self)
                       spoken (model_id self)]
    /\ file_outcome
         (text_to_speech_convert svc (voice_id self) (output_format self)
            spoken (model_id self)) filename r.
Proof.
  intro Hn.
  destruct (text_to_audio_file_run svc self text filename w Hn)
    as (sp & r & w' & E & _ & _ & C & O).
  exists sp, r, w'. repeat split; assumption.
Qed.

Lemma audio_file_witness :
  exists spoken r w',
    text_to_audio_file working_services default_eleven
      (lit "A short summary of the paper.") (lit "paper_summary.mp3")
      empty_world = (r, w')
    /\ calls w'
       = calls empty_world
           ++ [TextToSpeechConvert (voice_id default_eleven)
                 (output_format default_eleven) spoken (model_id default_eleven)]
    /\ file_outcome
         (text_to_speech_convert working_services (voice_id default_eleven)
            (output_format default_eleven) spoken (model_id default_eleven))
         (lit "paper_summary.mp3") r.
Proof.
  apply (audio_file_carries_the_audio_and_the_name working_services
           default_eleven (lit "A short summary of the paper.")
           (lit "paper_summary.mp3") empty_world).
  apply strip_truthy_not_blank. reflexivity.
Defined.

Example audio_file_of_working_services :
  fst (text_to_audio_file working_services default_eleven
         (lit "A short summary of the paper.") (lit "paper_summary.mp3")
         empty_world)
  = Ok {| buffer := [Byte.x49; Byte.x44; Byte.x33];
          name := lit "paper_summary.mp3";
          position := 0 |}.
Proof. vm_compute. reflexivity. Qed.

Lemma str_eqb_eq (s t : str) : PyStr.eqb s t = true <-> s = t.
Proof.
  unfold PyStr.eqb. destruct (list_eq_dec N.eq_dec s t); split; congruence.
Qed.

(** X18.  Both constructors raise [ValueError] for an empty key and for the
    placeholder key of the sample configuration, and for any other key
    return a processor with the fixed limits (100000 input tokens, 2000
    output tokens) or the fixed audio format, logging one record. *)
Theorem constructors_reject_missing_and_placeholder_keys
    (api_key model voice_id model_id : str) (w : World) :
  ((api_key = [] \/ api_key = lit "your_anthropic_api_key_here") ->
   ClaudeClient.init api_key model w
   = (Raise (ValueError (lit "Valid Anthropic API key required")), w))
  /\ (api_key <> [] -> api_key <> lit "your_anthropic_api_key_here" ->
      ClaudeClient.init api_key model w
      = (Ok {| ClaudeClient.model := model;
               max_input_tokens := 100000;
               target_output_tokens := 2000 |},
         {| logged := logged w ++ [(INFO, ClaudeInitialized model)];
            calls := calls w; cursor := cursor w |}))
  /\ ((api_key = [] \/ api_key = lit "your_elevenlabs_api_key_here") ->
      ElevenLabs.init api_key voice_id model_id w
      = (Raise (ValueError (lit "Valid ElevenLabs API key required")), w))
  /\ (api_key <> [] -> api_key <> lit "your_elevenlabs_api_key_here" ->
      ElevenLabs.init api_key voice_id model_id w
      = (Ok {| ElevenLabs.voice_id := voice_id;
               ElevenLabs.model_id := model_id;
               output_format := lit "mp3_44100_128" |},
         {| logged := logged w ++ [(INFO, ElevenLabsInitialized voice_id)];
            calls := calls w; cursor := cursor w |})).
Proof.
  unfold ClaudeClient.init, ElevenLabs.init. repeat split.
  - intros [-> | ->]; reflexivity.
  - intros H1 H2.
    assert (T : truthy api_key = true)
      by (destruct api_key; [exfalso; apply H1; reflexivity|reflexivity]).
    rewrite T. cbn [negb orb].
    replace (PyStr.eqb api_key (lit "your_anthropic_api_key_here")) with false.
    + reflexivity.
    + symmetry. apply not_true_is_false. intro E. apply str_eqb_eq in E.
      contradiction.
  - intros [-> | ->]; reflexivity.
  - intros H1 H2.
    assert (T : truthy api_key = true)
      by (destruct api_key; [exfalso; apply H1; reflexivity|reflexivity]).
    rewrite T. cbn [negb orb].
    replace (PyStr.eqb api_key (lit "your_elevenlabs_api_key_here")) with false.
    + reflexivity.
    + symmetry. apply not_true_is_false. intro E. apply str_eqb_eq in E.
      contradiction.
Qed.

Lemma upload_size_check_witness :
  file_too_large (getvalue scanned_file) 10
  = Ok (10 * 1048576 <? Z.of_nat (List.length (getvalue scanned_file))).
Proof.
  apply (upload_size_check_is_exact (getvalue scanned_file) 10).
  reflexivity.
Defined.

Lemma pipeline_without_text_witness :
  exists w',
    process_pdf_to_audio silent_services default_claude default_eleven
      scanned_file 3 empty_world = (Ok tt, w')
    /\ calls w'
       = calls empty_world
           ++ [StProgress 0;
               StStatusText ([128196%N] ++ lit " Extracting text from PDF...");
               StProgress 20;
               PdfplumberOpen (getvalue scanned_file) (cursor empty_world);
               PyPDF2Reader (getvalue scanned_file) 0;
               StError extraction_failed;
               StError ([10060%N] ++ lit " Failed to extract text from PDF");
               StProgressEmpty;
               StStatusEmpty].
Proof.
  apply (pipeline_without_text_calls_no_service silent_services default_claude
           default_eleven scanned_file 3 empty_world); reflexivity.
Defined.



Lemma summary_filename_plain_witness :
  summary_filename (lit "paper" ++ lit ".pdf") = lit "paper" ++ lit "_summary.mp3".
Proof.
  apply (summary_filename_plain (lit "paper")).
  intro H. vm_compute in H. repeat (destruct H as [H|H]; [discriminate H|]).
  exact H.
Defined.

End Pipeline.
